(** * go-openconnect-sso: a shallow embedding of [main.go]

    The program is a linear orchestration script: it starts a browser,
    performs the "init" exchange with the VPN gateway, polls the browser's
    cookie jar for the SSO token cookie, performs the "auth-reply" exchange
    and writes the credential file.

    Everything the program cannot decide by itself (the browser, the
    network, the XML decoder, the file system) is gathered in a record
    [World] of oracles.  The program is a function of the world; it threads
    a [State] (the process-wide logger, the file system, the trace of
    external actions) through an error monad whose failures are the ways the
    process can stop: [os.Exit], a nil dereference, or, for the model only,
    the end of the fuel that bounds the number of polls of the login wait. *)

From Stdlib Require Import ZArith NArith Lia Ascii String.
From stdpp Require Import base strings list gmap fin_maps.

Open Scope string_scope.
Open Scope list_scope.

(** ** Strings

    Go strings are byte sequences; [string] is a list of 8-bit characters. *)

Definition nl : string := String (Ascii.ascii_of_nat 10) EmptyString.
Definition tab : string := String (Ascii.ascii_of_nat 9) EmptyString.
Definition dq : string := String (Ascii.ascii_of_nat 34) EmptyString.

(** [q s] is [s] between double quotes, as in an XML attribute. *)
Definition q (s : string) : string := dq +:+ s +:+ dq.

(** [a, b, c] joined the way [fmt] lists surplus operands. *)
Fixpoint extra_operands (args : list string) : string :=
  match args with
  | [] => EmptyString
  | [a] => "string=" +:+ a
  | a :: rest => "string=" +:+ a +:+ ", " +:+ extra_operands rest
  end.

(** [fmt.Sprintf] restricted to string operands and the verbs the program
    uses: [%s] consumes the next operand, [%%] is a percent sign; a missing
    operand and surplus operands print the way [fmt] reports them. *)
Fixpoint Sprintf (format : string) (args : list string) : string :=
  match format with
  | EmptyString =>
      match args with
      | [] => EmptyString
      | _ => "%!(EXTRA " +:+ extra_operands args +:+ ")"
      end
  | String "%"%char EmptyString => "%!(NOVERB)"
  | String "%"%char (String "s"%char rest) =>
      match args with
      | a :: args' => a +:+ Sprintf rest args'
      | [] => "%!s(MISSING)" +:+ Sprintf rest []
      end
  | String "%"%char (String "%"%char rest) => String "%"%char (Sprintf rest args)
  | String c rest => String c (Sprintf rest args)
  end.

(** Substring test, used to state what a payload contains. *)
Fixpoint contains (s sub : string) : bool :=
  String.prefix sub s ||
  match s with
  | EmptyString => false
  | String _ s' => contains s' sub
  end.

(** ** HTTP headers ([net/http.Header])

    [Header.Set] and [Header.Get] go through
    [textproto.CanonicalMIMEHeaderKey]: a key made of header-field bytes
    only gets an upper-case first letter and an upper-case letter after
    every hyphen, all other letters lower-case; any other key is left as it
    is. *)

Definition isLower (c : ascii) : bool :=
  let n := N_of_ascii c in ((97 <=? n) && (n <=? 122))%N.
Definition isUpper (c : ascii) : bool :=
  let n := N_of_ascii c in ((65 <=? n) && (n <=? 90))%N.
Definition isDigit (c : ascii) : bool :=
  let n := N_of_ascii c in ((48 <=? n) && (n <=? 57))%N.

Definition validHeaderFieldByte (c : ascii) : bool :=
  isLower c || isUpper c || isDigit c ||
  bool_decide (N_of_ascii c ∈
    [33; 35; 36; 37; 38; 39; 42; 43; 45; 46; 94; 95; 96; 124; 126]%N).

Fixpoint allValid (s : string) : bool :=
  match s with
  | EmptyString => true
  | String c rest => validHeaderFieldByte c && allValid rest
  end.

Definition toLower : N := 32.

Fixpoint canonicalize (upper : bool) (s : string) : string :=
  match s with
  | EmptyString => EmptyString
  | String c rest =>
      let c' :=
        if upper && isLower c then ascii_of_N (N_of_ascii c - toLower)
        else if negb upper && isUpper c then ascii_of_N (N_of_ascii c + toLower)
        else c in
      String c' (canonicalize (Ascii.eqb c' "-") rest)
  end.

Definition CanonicalMIMEHeaderKey (s : string) : string :=
  if allValid s then canonicalize true s else s.

Abbreviation Header := (gmap string (list string)).

Definition Header_Set (h : Header) (key value : string) : Header :=
  <[CanonicalMIMEHeaderKey key := [value]]> h.

Definition Header_Get (h : Header) (key : string) : string :=
  match h !! CanonicalMIMEHeaderKey key with
  | Some (v :: _) => v
  | _ => EmptyString
  end.

(** ** Data model *)

(** Go's [error] values, by their message; [None] is [nil]. *)
Definition error := string.

(** Modelled from the spec: package [config] of the repository is not among
    the sources; section 3 of the specification gives the fields of its
    response types.  This is the [Opaque] field of the initialization
    response. *)
Record Opaque := { Opaque_Value : string }.

(** Modelled from the spec: [config.InitializationResponse], fields as in
    section 3. *)
Record InitializationResponse := {
  LoginURL : string;
  LoginFinalURL : string;
  TokenCookieName : string;
  Opaque_ : Opaque
}.

(** Modelled from the spec: [config.FinalizationResponse], fields as in
    section 3. *)
Record FinalizationResponse := {
  Cookie : string;
  Fingerprint : string
}.

(** [playwright.NetworkCookie], with the two fields the program reads. *)
Record NetworkCookie := { Name : string; Value : string }.

Record Request := {
  Method : string;
  URL : string;
  Header_ : Header;
  Body : string
}.

(** An [http.Response] as the program sees it: the status code, the URL of
    the request that produced it ([resp.Request.URL.String()], the last one
    after redirects), and what [io.ReadAll(resp.Body)] returns: the bytes
    read and the error that stopped the read, if one did. *)
Record Response := {
  StatusCode : Z;
  Request_URL : string;
  ReadAll_data : string;
  ReadAll_err : option error
}.

(** A file: permission bits and content. *)
Record File := { mode : N; data : string }.

Abbreviation FS := (gmap string File).

(** How a call to [os.WriteFile] ends: it succeeds, the open fails (nothing
    is touched), or the write fails after the file was opened and the first
    [n] bytes were written. *)
Inductive WriteOutcome :=
| WriteOk
| OpenFails (e : error)
| WriteFails (n : nat) (e : error).

(** [slog.Level] is an integer; these are the four named levels. *)
Definition Level := Z.
Definition LevelDebug : Level := (-4)%Z.
Definition LevelInfo : Level := 0%Z.
Definition LevelWarn : Level := 4%Z.
Definition LevelError : Level := 8%Z.

Inductive Format := TextHandler | JSONHandler.

(** A [*slog.Logger]: the handler's format and minimum level, and the
    attributes added to every record. *)
Record Logger := {
  handler : Format;
  min_level : Level;
  with_attrs : list (string * string)
}.

Record LogRecord := {
  level : Level;
  msg : string;
  attrs : list (string * string)
}.

(** The external actions of a run, in order. *)
Inductive Event :=
| EvLog (r : LogRecord)
| EvPlaywrightRun
| EvLaunch (headless : bool)
| EvNewContext
| EvNewPage
| EvGet (url : string)
| EvDo (req : Request)
| EvUnmarshal (body : string)
| EvGoto (url : string)
| EvCookies (poll : nat)
| EvBrowserClose
| EvSleep (ns : Z)
| EvWriteFile (name content : string) (perm : N).

(** How the process stops.  [Spinning] is the verdict of a run that was
    still polling when the fuel of the model ran out. *)
Inductive Outcome :=
| Exit (code : Z)
| Panic
| Spinning.

(** ** The world

    One oracle per external call.  The browser calls return a value and an
    error that the program reads separately, so both are given ([true] is a
    non-nil value).  The HTTP calls are only used after their error was
    checked, so they return one or the other. *)

(** The [headers] map literal of [makePostReq]. *)
Definition headers : gmap string string :=
  list_to_map
    [ ("User-Agent", "AnyConnect Linux_64 4.7.00136");
      ("Accept", "*/*");
      ("Accept-Encoding", "identity");
      ("X-Transcend-Version", "1");
      ("X-Aggregate-Auth", "1");
      ("X-Support-HTTP-Auth", "true");
      ("Content-Type", "application/x-www-form-urlencoded") ].

Record World := {
  playwright_Run : bool * option error;
  Firefox_Launch : bool * option error;
  browser_NewContext : bool * option error;
  context_NewPage : bool * option error;
  (** the jar and the error of the n-th call to [context.Cookies()] *)
  context_Cookies : nat -> list NetworkCookie * option error;
  http_Get : string -> Response + error;
  (** the error of [http.NewRequest method url _], if it has one *)
  http_NewRequest : string -> string -> option error;
  (** [req.URL.String()] for a request made from this URL *)
  URL_String : string -> string;
  client_Do : Request -> Response + error;
  xml_Unmarshal_init : string -> InitializationResponse + error;
  xml_Unmarshal_final : string -> FinalizationResponse + error;
  os_WriteFile_outcome : string -> string -> WriteOutcome;
  umask : N;
  (** the order in which [range headers] visits the map in the call of
      [makePostReq] with this payload: Go leaves it unspecified *)
  range_headers : string -> list (string * string);
  range_headers_perm : ∀ payload, range_headers payload ≡ₚ map_to_list headers
}.

(** ** State and monad *)

Record State := {
  log : Logger;            (* the package variable [log] *)
  fs : FS;
  polls : nat;             (* calls to [context.Cookies()] so far *)
  trace : list Event
}.

Inductive Res (A : Type) :=
| Ok (a : A)
| Stop (o : Outcome).
Arguments Ok {A} a.
Arguments Stop {A} o.

Definition M (A : Type) : Type := State → State * Res A.

Definition ret {A} (a : A) : M A := λ s, (s, Ok a).

Definition bind {A B} (m : M A) (k : A → M B) : M B :=
  λ s, match m s with
       | (s', Ok a) => k a s'
       | (s', Stop o) => (s', Stop o)
       end.

#[global] Instance M_ret : MRet M := @ret.
#[global] Instance M_bind : MBind M := λ A B k m, bind m k.

(** The state after the actions [evs]. *)
Definition add_trace (s : State) (evs : list Event) : State :=
  {| log := log s; fs := fs s; polls := polls s; trace := trace s ++ evs |}.

Definition emit (e : Event) : M unit := λ s, (add_trace s [e], Ok tt).

Definition stop {A} (o : Outcome) : M A := λ s, (s, Stop o).

Definition os_Exit {A} (code : Z) : M A := stop (Exit code).

(** A method call or field access through a nil value. *)
Definition deref (non_nil : bool) : M unit :=
  if non_nil then ret tt else stop Panic.

Definition set_log (l : Logger) : M unit :=
  λ s, ({| log := l; fs := fs s; polls := polls s; trace := trace s |}, Ok tt).

Definition get_log : M Logger := λ s, (s, Ok (log s)).

(** [log.With(key, value)] *)
Definition Logger_With (l : Logger) (key value : string) : Logger :=
  {| handler := handler l; min_level := min_level l;
     with_attrs := with_attrs l ++ [(key, value)] |}.

(** A call [log.Debug/Info/Error(msg, args...)]: the record handed to the
    logger.  The handler prints it when [printed] holds. *)
Definition log_at (lvl : Level) (m : string) (args : list (string * string)) : M unit :=
  l ← get_log;
  emit (EvLog {| level := lvl; msg := m; attrs := with_attrs l ++ args |}).

Definition printed (l : Logger) (r : LogRecord) : bool :=
  (min_level l <=? level r)%Z.

Definition log_Debug := log_at LevelDebug.
Definition log_Info := log_at LevelInfo.
Definition log_Error := log_at LevelError.

(** Log the error of a call when it has one, and carry on. *)
Definition log_if_err (err : option error) (m : string) : M unit :=
  match err with
  | Some e => log_Error m [("err", e)]
  | None => ret tt
  end.

(** ** The program *)

Record Flags := {
  server : string;
  ocFile : string;
  logFormat : string;
  logLevel : string
}.

(** *** The command line ([flag])

    [main] defines four string flags on the default flag set, whose error
    handling is [ExitOnError], and calls [flag.Parse()] on the arguments
    after the program name.  An argument of less than two bytes or without
    a leading hyphen ends the flags, as does [--]; a flag is written with
    one or two hyphens, its value after [=] or in the next argument; a later
    occurrence replaces an earlier one.  An undefined flag is an error, but
    for [-h] and [-help], which ask for the usage.  The usage and the error
    that [flag] prints are not part of the model, only the way parsing
    ends. *)

(** The values of the flags before parsing. *)
Definition default_flags : Flags :=
  {| server := EmptyString; ocFile := EmptyString;
     logFormat := "text"; logLevel := "info" |}.

(** How [flag.Parse] fails: [flag.ErrHelp], or an error with its message. *)
Inductive ParseError :=
| ErrHelp
| ParseFails (message : error).

(** The flag of that name among the four that [main] defines, as the
    assignment to its variable. *)
Definition flag_Lookup (name : string) : option (string → Flags → Flags) :=
  if name =? "server" then
    Some (λ value f, {| server := value; ocFile := ocFile f;
                        logFormat := logFormat f; logLevel := logLevel f |})
  else if name =? "config" then
    Some (λ value f, {| server := server f; ocFile := value;
                        logFormat := logFormat f; logLevel := logLevel f |})
  else if name =? "log-format" then
    Some (λ value f, {| server := server f; ocFile := ocFile f;
                        logFormat := value; logLevel := logLevel f |})
  else if name =? "log-level" then
    Some (λ value f, {| server := server f; ocFile := ocFile f;
                        logFormat := logFormat f; logLevel := value |})
  else None.

(** A string cut at its first [=]. *)
Fixpoint cut_at_equals (s : string) : string * option string :=
  match s with
  | EmptyString => (EmptyString, None)
  | String c rest =>
      if Ascii.eqb c "=" then (EmptyString, Some rest)
      else let '(name, value) := cut_at_equals rest in (String c name, value)
  end.

(** The name and the value of [name=value]; the first byte of the name is
    never taken for the [=]. *)
Definition name_and_value (s : string) : string * option string :=
  match s with
  | EmptyString => (EmptyString, None)
  | String c rest =>
      let '(name, value) := cut_at_equals rest in (String c name, value)
  end.

(** The text of an argument after its one or two hyphens, when it has two
    bytes at least and starts with a hyphen. *)
Definition after_hyphens (s : string) : option string :=
  match s with
  | String c (String d rest) =>
      if Ascii.eqb c "-" then
        Some (if Ascii.eqb d "-" then rest else String d rest)
      else None
  | _ => None
  end.

(** [FlagSet.Parse]: [parseOne] as long as it finds a flag. *)
Fixpoint flag_parse (args : list string) (f : Flags) : Flags + ParseError :=
  match args with
  | [] => inl f
  | s :: rest =>
      match after_hyphens s with
      | None => inl f
      | Some text =>
          if s =? "--" then inl f
          else
            match text with
            | EmptyString => inr (ParseFails ("bad flag syntax: " +:+ s))
            | String c _ =>
                if Ascii.eqb c "-" || Ascii.eqb c "=" then
                  inr (ParseFails ("bad flag syntax: " +:+ s))
                else
                  let '(name, value) := name_and_value text in
                  match flag_Lookup name with
                  | None =>
                      if (name =? "help") || (name =? "h") then inr ErrHelp
                      else inr (ParseFails
                                  ("flag provided but not defined: -" +:+ name))
                  | Some set =>
                      match value with
                      | Some v => flag_parse rest (set v f)
                      | None =>
                          match rest with
                          | v :: rest' => flag_parse rest' (set v f)
                          | [] =>
                              inr (ParseFails
                                     ("flag needs an argument: -" +:+ name))
                          end
                      end
                  end
            end
      end
  end.

(** [flag.Parse()] on the arguments [args] of the process. *)
Definition flag_Parse (args : list string) : Flags + ParseError :=
  flag_parse args default_flags.

Definition setupLogger (format level : string) : Logger :=
  let slogLevel : Level :=
    if level =? "debug" then LevelDebug
    else if level =? "info" then LevelInfo
    else if level =? "warn" then LevelWarn
    else if level =? "error" then LevelError
    else if level =? "none" then 100%Z
    else LevelInfo in
  let h :=
    if format =? "json" then JSONHandler
    else if format =? "text" then TextHandler
    else TextHandler in
  {| handler := h; min_level := slogLevel; with_attrs := [("ts", "utc")] |}.

(** [log = log.With("stage", name)] *)
Definition log_With_stage (name : string) : M unit :=
  l ← get_log;
  set_log (Logger_With l "stage" name).

(** Every element followed by a newline. *)
Definition unlines (ls : list string) : string :=
  foldr (λ l acc, l +:+ nl +:+ acc) EmptyString ls.

Definition init_format : string :=
  unlines
    [ EmptyString;
      "    <config-auth client=" +:+ q "vpn" +:+ " type=" +:+ q "init"
        +:+ " aggregate-auth-version=" +:+ q "2" +:+ ">";
      "      <version who=" +:+ q "vpn" +:+ ">4.7.00136</version>";
      "      <device-id>linux-64</device-id>";
      "      <group-select></group-select>";
      tab +:+ tab +:+ tab +:+ "<group-access>%s</group-access>";
      "      <capabilities>";
      "        <auth-method>single-sign-on-v2</auth-method>";
      "      </capabilities>";
      "    </config-auth>" ]
  +:+ tab.

Definition final_format : string :=
  unlines
    [ EmptyString;
      "    <config-auth client=" +:+ q "vpn" +:+ " type=" +:+ q "auth-reply"
        +:+ " aggregate-auth-version=" +:+ q "2" +:+ ">";
      "      <version who=" +:+ q "vpn" +:+ ">4.7.00136</version>";
      "      <device-id>linux-64</device-id>";
      "      <session-token/>";
      "      <session-id/>";
      "      <opaque is-for=" +:+ q "sg" +:+ ">%s</opaque>";
      "      <auth>";
      "        <sso-token>%s</sso-token>";
      "      </auth>";
      "      </config-auth>" ]
  +:+ "  ".

Definition config_format : string :=
  "cookie=%s" +:+ nl +:+ "servercert=%s" +:+ nl +:+ "# host=%s" +:+ nl.

(** The request of [makePostReq]: [http.NewRequest] followed by the
    [range] loop that sets the headers, in the order [order]. *)
Definition build_request (order : list (string * string))
    (xmlPayload srv : string) : Request :=
  {| Method := "POST"; URL := srv;
     Header_ := foldl (λ h kv, Header_Set h kv.1 kv.2) ∅ order;
     Body := xmlPayload |}.

Definition makePostReq (w : World) (xmlPayload srv : string) : M string :=
  match http_NewRequest w "POST" srv with
  | Some e =>
      log_Error "Failed to create http request" [("err", e)];;
      os_Exit 1
  | None =>
      let req := build_request (range_headers w xmlPayload) xmlPayload srv in
      emit (EvDo req);;
      match client_Do w req with
      | inr e =>
          log_Error "failed to POST request to the server"
            [("server", URL_String w srv); ("err", e)];;
          os_Exit 1
      | inl resp =>
          let body := ReadAll_data resp in   (* body, _ := io.ReadAll(resp.Body) *)
          log_Info "successfullly received response from server"
            [("url", Request_URL resp)];;
          log_Debug "received response" [("body", body); ("url", Request_URL resp)];;
          mret body
      end
  end.

Definition initializationStage (w : World) (url : string)
    : M (InitializationResponse * string) :=
  log_With_stage "initialization";;
  emit (EvGet url);;
  match http_Get w url with
  | inr e =>
      log_Error "Failed to get url" [("url", url); ("err", e)];;
      os_Exit 1
  | inl resp =>
      let targetVPNServer := Request_URL resp in
      let xmlPayload := Sprintf init_format [targetVPNServer] in
      log_Debug "configuring VPN request" [("targetVPNServer", targetVPNServer)];;
      body ← makePostReq w xmlPayload targetVPNServer;
      log_Debug "received response from server" [("body", body)];;
      emit (EvUnmarshal body);;
      match xml_Unmarshal_init w body with
      | inr e =>
          log_Error "failed to unmarshal the received response body to XML"
            [("err", e); ("body", body)];;
          os_Exit 1
      | inl result =>
          log_Info "unmarshalled init response"
            [("loginURL", LoginURL result);
             ("loginFinalURL", LoginFinalURL result);
             ("tokenCookieName", TokenCookieName result);
             ("opaque", Opaque_Value (Opaque_ result))];;
          mret (result, targetVPNServer)
      end
  end.

Definition finalizationStage (w : World) (vpnServer token configHash : string)
    : M FinalizationResponse :=
  log_With_stage "finalization";;
  let xmlPayload := Sprintf final_format [configHash; token] in
  body ← makePostReq w xmlPayload vpnServer;
  log_Debug "received response from server" [("body", body)];;
  emit (EvUnmarshal body);;
  match xml_Unmarshal_final w body with
  | inr e =>
      log_Error "failed to unmarshal the received response body to XML"
        [("err", e); ("body", body)];;
      os_Exit 1
  | inl result =>
      log_Debug "unmarshalled final response"
        [("cookie", Cookie result); ("fingerprint", Fingerprint result)];;
      mret result
  end.

(** [os.WriteFile(name, data, perm)]: open with create and truncate, write,
    close.  A file that does not exist is created with [perm] less the
    umask; one that exists is truncated and keeps its permission bits. *)
Definition open_trunc (mask : N) (name : string) (perm : N) (files : FS) : FS :=
  match files !! name with
  | Some f => <[name := {| mode := mode f; data := EmptyString |}]> files
  | None => <[name := {| mode := N.ldiff perm mask; data := EmptyString |}]> files
  end.

Definition write_data (name content : string) (files : FS) : FS :=
  match files !! name with
  | Some f => <[name := {| mode := mode f; data := content |}]> files
  | None => files
  end.

Definition WriteFile_files (w : World) (name content : string) (perm : N)
    : M (option error) :=
  λ s,
    let put files err :=
      ({| log := log s; fs := files; polls := polls s; trace := trace s |},
       Ok err) in
    match os_WriteFile_outcome w name content with
    | OpenFails e => put (fs s) (Some e)
    | WriteFails n e =>
        put (write_data name (String.substring 0 n content)
               (open_trunc (umask w) name perm (fs s))) (Some e)
    | WriteOk =>
        put (write_data name content
               (open_trunc (umask w) name perm (fs s))) None
    end.

Definition os_WriteFile (w : World) (name content : string) (perm : N)
    : M (option error) :=
  emit (EvWriteFile name content perm);;
  WriteFile_files w name content perm.

(** 0600 *)
Definition perm_0600 : N := 6 * 64 + 0 * 8 + 0.

Definition writeOCConfig (w : World) (cookie fingerprint srv file : string)
    : M unit :=
  let content := Sprintf config_format [cookie; fingerprint; srv] in
  err ← os_WriteFile w file content perm_0600;
  match err with
  | Some e =>
      log_Error "failed to write authentication details to file"
        [("file", file); ("err", e)];;
      os_Exit 1
  | None =>
      log_Info "successfully written authentication details to file"
        [("file", file)]
  end.

(** [context.Cookies()]: the next answer of the world. *)
Definition context_Cookies_call (w : World)
    : M (list NetworkCookie * option error) :=
  λ s, ({| log := log s; fs := fs s; polls := S (polls s);
           trace := trace s ++ [EvCookies (polls s)] |},
        Ok (context_Cookies w (polls s))).

(** The inner loop of the wait, [for _, cookie := range cookies]: it stops
    at the first cookie of that name; the result is [foundCookie] together
    with [tokenCookie]. *)
Fixpoint range_cookies (name : string) (cookies : list NetworkCookie)
    : M (option NetworkCookie) :=
  match cookies with
  | [] => mret None
  | cookie :: rest =>
      if Name cookie =? name then
        log_Info "received successful authentication token cookie from browser" [];;
        mret (Some cookie)
      else range_cookies name rest
  end.

Definition Millisecond : Z := 1000000.

(** The outer loop, [for { ... }], run for at most [fuel] polls. *)
Fixpoint login_wait (w : World) (name : string) (fuel : nat) : M NetworkCookie :=
  match fuel with
  | O => stop Spinning
  | S fuel' =>
      '(cookies, err) ← context_Cookies_call w;
      log_if_err err "could not get cookies from browser context";;
      found ← range_cookies name cookies;
      match found with
      | Some tokenCookie =>
          emit EvBrowserClose;;
          mret tokenCookie
      | None =>
          emit (EvSleep (10 * Millisecond));;
          login_wait w name fuel'
      end
  end.

(** [main] from the statement after [flag.Parse()] on, the flags holding the
    values [flags]. *)
Definition main_after_Parse (w : World) (flags : Flags) (fuel : nat) : M unit :=
  set_log (setupLogger (logFormat flags) (logLevel flags));;
  log_Info "Logger initialized" [];;
  emit EvPlaywrightRun;;
  let '(pw, err) := playwright_Run w in
  log_if_err err "could not launch playwright";;
  deref pw;;
  emit (EvLaunch false);;
  let '(browser, err) := Firefox_Launch w in
  log_if_err err "could not launch Firefox";;
  deref browser;;
  emit EvNewContext;;
  let '(context, err) := browser_NewContext w in
  log_if_err err "could not create context";;
  deref context;;
  emit EvNewPage;;
  let '(page, err) := context_NewPage w in
  log_if_err err "could not create page";;
  '(initResp, targetVPNServer) ← initializationStage w (server flags);
  log_Info "waiting to detect successful authentication token cookie on the browser" [];;
  deref page;;
  emit (EvGoto (LoginURL initResp));;
  tokenCookie ← login_wait w (TokenCookieName initResp) fuel;
  finalResp ← finalizationStage w targetVPNServer (Value tokenCookie)
                 (Opaque_Value (Opaque_ initResp));
  log_Info "received openconnect server fingerprint and connection cookie successfully" [];;
  writeOCConfig w (Cookie finalResp) (Fingerprint finalResp) targetVPNServer
    (ocFile flags).


(** The state before [main]: [log] is still unset, nothing has happened. *)
Definition boot (files : FS) : State :=
  {| log := {| handler := TextHandler; min_level := LevelInfo; with_attrs := [] |};
     fs := files; polls := 0; trace := [] |}.

(** A run of the process whose command line gave the flags [flags]:
    returning from [main] is exit status 0. *)
Definition run (w : World) (flags : Flags) (files : FS) (fuel : nat)
    : State * Outcome :=
  match main_after_Parse w flags fuel (boot files) with
  | (s, Ok _) => (s, Exit 0)
  | (s, Stop o) => (s, o)
  end.


(** ** Scenarios

    Concrete worlds on which the program can be run: the end-to-end
    scenario of the specification and variations of it. *)

(** A response with the given final URL, body, status and read error. *)
Definition ok_response (u body : string) (status : Z) (read_err : option error) : Response :=
  {| StatusCode := status; Request_URL := u; ReadAll_data := body; ReadAll_err := read_err |}.

(** A gateway that redirects to https://vpn2.example.com, answers the init
    request with login URL, token cookie name [ssotoken] and opaque value
    [abc123], and the auth-reply request with cookie [sesscookie] and
    fingerprint [fp789]; the browser starts; the rest is given. *)
Definition scenario (page : bool * option error)
    (jars : nat → list NetworkCookie * option error)
    (status : Z) (read_err : option error)
    (wr : WriteOutcome) (mask : N) : World :=
  {| playwright_Run := (true, None);
     Firefox_Launch := (true, None);
     browser_NewContext := (true, None);
     context_NewPage := page;
     context_Cookies := jars;
     http_Get := λ _, inl (ok_response "https://vpn2.example.com" "<html/>" status read_err);
     http_NewRequest := λ _ _, None;
     URL_String := λ u, u;
     client_Do := λ r,
       inl (ok_response (URL r)
              (if contains (Body r) "auth-reply" then "FINAL" else "INIT")
              status read_err);
     xml_Unmarshal_init := λ b,
       if b =? "INIT" then
         inl {| LoginURL := "https://idp.example.com/login";
                LoginFinalURL := EmptyString;
                TokenCookieName := "ssotoken";
                Opaque_ := {| Opaque_Value := "abc123" |} |}
       else inr "EOF";
     xml_Unmarshal_final := λ b,
       if b =? "FINAL" then inl {| Cookie := "sesscookie"; Fingerprint := "fp789" |}
       else inr "EOF";
     os_WriteFile_outcome := λ _ _, wr;
     umask := mask;
     range_headers := λ _, map_to_list headers;
     range_headers_perm := λ _, reflexivity _ |}.

(** The jar lacks the token at the first poll and has it, behind a decoy,
    from the second on. *)
Definition jar_after_one_poll (n : nat) : list NetworkCookie * option error :=
  match n with
  | O => ([ {| Name := "other"; Value := "x" |} ], None)
  | _ => ([ {| Name := "other"; Value := "x" |};
            {| Name := "ssotoken"; Value := "tok456" |} ], None)
  end.

(** The end-to-end scenario of the specification. *)
Definition spec_world : World :=
  scenario (true, None) jar_after_one_poll 200 None WriteOk 18.

(** The output file cannot be opened. *)
Definition denied_world : World :=
  scenario (true, None) jar_after_one_poll 200 None (OpenFails "permission denied") 18.

(** 0644 *)
Definition perm_0644 : N := 6 * 64 + 4 * 8 + 4.

(** A file system in which the output file exists, readable by all. *)
Definition stale_files : FS :=
  {[ "/tmp/oc" := {| mode := perm_0644; data := "cookie=old" |} ]}.

(** The first poll fails with an error and an empty jar, the second one
    finds the token. *)
Definition jar_after_error (n : nat) : list NetworkCookie * option error :=
  match n with
  | O => ([], Some "target closed")
  | _ => ([ {| Name := "ssotoken"; Value := "tok456" |} ], None)
  end.

Definition flaky_world : World :=
  scenario (true, None) jar_after_error 200 None WriteOk 18.

(** [context.NewPage()] fails and returns no page. *)
Definition no_page_world : World :=
  scenario (false, Some "browser has been closed") jar_after_one_poll 200 None WriteOk 18.

(** The gateway answers 500 and the body breaks off while it is read. *)
Definition broken_world : World :=
  scenario (true, None) jar_after_one_poll 500 (Some "unexpected EOF") WriteOk 18.

(** The token cookie never shows up. *)
Definition jar_without_token (n : nat) : list NetworkCookie * option error :=
  ([ {| Name := "other"; Value := "x" |}; {| Name := "SSOTOKEN"; Value := "y" |} ], None).

Definition stalled_world : World :=
  scenario (true, None) jar_without_token 200 None WriteOk 18.

Definition spec_flags : Flags :=
  {| server := "https://vpn.example.com"; ocFile := "/tmp/oc";
     logFormat := "text"; logLevel := "info" |}.

(** ** Vocabulary of the statements

    Names for the parts of a trace and for the documents the program
    produces. *)

(** The records of a call that logs an error when there is one. *)
Definition err_log (l : Logger) (err : option error) (m : string) : list Event :=
  match err with
  | Some e => [EvLog {| level := LevelError; msg := m;
                        attrs := with_attrs l ++ [("err", e)] |}]
  | None => []
  end.

(** The record of a call [log.X(m, args...)] on the logger [l]. *)
Definition record (l : Logger) (lvl : Level) (m : string)
    (args : list (string * string)) : Event :=
  EvLog {| level := lvl; msg := m; attrs := with_attrs l ++ args |}.

(** The header every request leaves with: keys in canonical form, one value
    each. *)
Definition sent_header : Header :=
  list_to_map
    [ ("User-Agent", ["AnyConnect Linux_64 4.7.00136"]);
      ("Accept", ["*/*"]);
      ("Accept-Encoding", ["identity"]);
      ("X-Transcend-Version", ["1"]);
      ("X-Aggregate-Auth", ["1"]);
      ("X-Support-Http-Auth", ["true"]);
      ("Content-Type", ["application/x-www-form-urlencoded"]) ].

(** What [Header.Set] stores for an entry of the map literal. *)
Definition header_entry (kv : string * string) : string * list string :=
  (CanonicalMIMEHeaderKey kv.1, [kv.2]).

(** The first cookie of a jar with that name. *)
Definition first_match (name : string) (jar : list NetworkCookie) : option NetworkCookie :=
  find (λ c, Name c =? name) jar.

(** The record logged when the token cookie is found. *)
Definition received_token (l : Logger) : Event :=
  record l LevelInfo "received successful authentication token cookie from browser" [].

(** What one poll adds to the trace. *)
Definition poll_events (l : Logger) (w : World) (k : nat) : list Event :=
  EvCookies k ::
  err_log l (context_Cookies w k).2 "could not get cookies from browser context".

(** [n] polls from the [k]-th on, none of which finds the cookie. *)
Fixpoint idle_rounds (l : Logger) (w : World) (k n : nat) : list Event :=
  match n with
  | O => []
  | S n' => poll_events l w k ++ EvSleep (10 * Millisecond) :: idle_rounds l w (S k) n'
  end.

(** The state [n] polls and the actions [evs] later. *)
Definition after_polls (s : State) (n : nat) (evs : list Event) : State :=
  {| log := log s; fs := fs s; polls := polls s + n; trace := trace s ++ evs |}.

(** Projections of a trace. *)
Definition pick {A} (f : Event → option A) (tr : list Event) : list A := omap f tr.

Definition sleep_of (e : Event) : option Z :=
  match e with EvSleep d => Some d | _ => None end.
Definition post_of (e : Event) : option Request :=
  match e with EvDo r => Some r | _ => None end.
Definition write_of (e : Event) : option (string * string * N) :=
  match e with EvWriteFile f c p => Some (f, c, p) | _ => None end.
Definition unmarshal_of (e : Event) : option string :=
  match e with EvUnmarshal b => Some b | _ => None end.
Definition close_of (e : Event) : option unit :=
  match e with EvBrowserClose => Some tt | _ => None end.
Definition goto_of (e : Event) : option string :=
  match e with EvGoto u => Some u | _ => None end.
Definition get_of (e : Event) : option string :=
  match e with EvGet u => Some u | _ => None end.

(** The sleeps, the requests sent, the files written, the bodies decoded,
    the closes of the browser, the pages visited and the GETs of a trace. *)
Definition sleeps := pick sleep_of.
Definition posts := pick post_of.
Definition writes := pick write_of.
Definition unmarshals := pick unmarshal_of.
Definition closes := pick close_of.
Definition gotos := pick goto_of.
Definition gets := pick get_of.

(** The state after [log = l]. *)
Definition with_log (s : State) (l : Logger) : State :=
  {| log := l; fs := fs s; polls := polls s; trace := trace s |}.

(** [finalizationStage] starts with [log = log.With("stage",
    "finalization")] and nothing else sets that attribute: the process-wide
    logger tells whether the stage was entered. *)
Definition reached_finalization (s : State) : Prop :=
  ("stage", "finalization") ∈ with_attrs (log s).

(** The requests of the two stages for the gateway [u]. *)
Definition init_request (w : World) (u : string) : Request :=
  let p := Sprintf init_format [u] in
  build_request (range_headers w p) p u.

Definition final_request (w : World) (u configHash token : string) : Request :=
  let p := Sprintf final_format [configHash; token] in
  build_request (range_headers w p) p u.

(** What the end of a run that entered the finalization stage looks like. *)
Definition finalization_end (w : World) (flags : Flags) (u : string)
    (req : Request) (s : State) (o : Outcome) : Prop :=
  match client_Do w req with
  | inr _ => o = Exit 1 ∧ writes (trace s) = []
  | inl resp2 =>
      match xml_Unmarshal_final w (ReadAll_data resp2) with
      | inr _ => o = Exit 1 ∧ writes (trace s) = []
      | inl fr =>
          let content := Sprintf config_format [Cookie fr; Fingerprint fr; u] in
          writes (trace s) = [(ocFile flags, content, perm_0600)] ∧
          match os_WriteFile_outcome w (ocFile flags) content with
          | WriteOk =>
              o = Exit 0 ∧
              ∃ f, fs s !! ocFile flags = Some f ∧ data f = content
          | _ => o = Exit 1
          end
      end
  end.

(** The body of the auth-reply request, written out. *)
Definition auth_reply_document (opaque token : string) : string :=
  nl +:+
  "    <config-auth client=" +:+ q "vpn" +:+ " type=" +:+ q "auth-reply"
    +:+ " aggregate-auth-version=" +:+ q "2" +:+ ">" +:+ nl +:+
  "      <version who=" +:+ q "vpn" +:+ ">4.7.00136</version>" +:+ nl +:+
  "      <device-id>linux-64</device-id>" +:+ nl +:+
  "      <session-token/>" +:+ nl +:+
  "      <session-id/>" +:+ nl +:+
  "      <opaque is-for=" +:+ q "sg" +:+ ">" +:+ opaque +:+ "</opaque>" +:+ nl +:+
  "      <auth>" +:+ nl +:+
  "        <sso-token>" +:+ token +:+ "</sso-token>" +:+ nl +:+
  "      </auth>" +:+ nl +:+
  "      </config-auth>" +:+ nl +:+
  "  ".

(** Two elements of the init document. *)
Definition version_element : string :=
  "<version who=" +:+ q "vpn" +:+ ">4.7.00136</version>".

Definition device_id_element : string := "<device-id>linux-64</device-id>".

(** The three lines of the credential file. *)
Definition credential_lines (cookie fingerprint host : string) : string :=
  "cookie=" +:+ cookie +:+ nl +:+
  "servercert=" +:+ fingerprint +:+ nl +:+
  "# host=" +:+ host +:+ nl.

(** The messages of the records logged at error level. *)
Definition error_logs (tr : list Event) : list string :=
  pick (λ e, match e with
             | EvLog r => if (level r =? LevelError)%Z then Some (msg r) else None
             | _ => None
             end) tr.

(** ** Vocabulary of the further properties *)

(** The text between the opaque value and the token in the auth-reply
    document. *)
Definition opaque_to_token : string :=
  "</opaque>" +:+ nl +:+ "      <auth>" +:+ nl +:+ "        <sso-token>".

(** The number of newline bytes of a string. *)
Fixpoint count_nl (s : string) : nat :=
  match s with
  | EmptyString => 0
  | String c rest => (if Ascii.eqb c (ascii_of_nat 10) then 1 else 0) + count_nl rest
  end.

(** The keys of the attributes of a record. *)
Definition keys (r : LogRecord) : list string := (attrs r).*1.

(** The records of a trace. *)
Definition log_of (e : Event) : option LogRecord :=
  match e with EvLog r => Some r | _ => None end.

Definition logs := pick log_of.

(** The message of the error record of a body that does not decode. *)
Definition decoding_failed : string :=
  "failed to unmarshal the received response body to XML".

(** A record has the attributes [cookie] and [fingerprint] only at debug
    level, and the attribute [body] only at debug level or when it is the
    error record of a body that does not decode. *)
Definition discreet (r : LogRecord) : Prop :=
  (level r ≠ LevelDebug → ("cookie" ∉ keys r) ∧ ("fingerprint" ∉ keys r)) ∧
  ("body" ∈ keys r →
   level r = LevelDebug ∨ (level r = LevelError ∧ msg r = decoding_failed)).

(** The same for a call [log.X(m, args...)], as a test on the level, the
    message and the keys of [args]. *)
Definition discreet_call (lvl : Level) (m : string) (ks : list string) : bool :=
  (Z.eqb lvl LevelDebug ||
   negb (bool_decide ("cookie" ∈ ks) || bool_decide ("fingerprint" ∈ ks))) &&
  (Z.eqb lvl LevelDebug || (Z.eqb lvl LevelError && (m =? decoding_failed)) ||
   negb (bool_decide ("body" ∈ ks))).

(** The attributes a logger adds are those of [setupLogger] and stages. *)
Definition plain_logger (l : Logger) : Prop :=
  ∀ k, k ∈ (with_attrs l).*1 → k = "ts" ∨ k = "stage".

(** An action keeps [I] when [I] holds after it if it held before. *)
Definition preserves {A} (I : State → Prop) (m : M A) : Prop :=
  ∀ s, I s → I (m s).1.


(** As long as [os.WriteFile] was not called, the files are as they were
    found. *)
Definition untouched_before_write (files : gmap string File) (s : State) : Prop :=
  writes (trace s) = [] → fs s = files.

(** Every record so far is discreet and was logged at the level of
    [setupLogger], and the logger adds plain attributes only. *)
Definition discreet_so_far (lvl : Level) (s : State) : Prop :=
  plain_logger (log s) ∧ min_level (log s) = lvl ∧
  Forall discreet (logs (trace s)).

(** The jars of [flaky_world] read without error. *)
Definition calm_world : World :=
  scenario (true, None) (λ n, ((jar_after_error n).1, None)) 200 None WriteOk 18.

(** The world [w] in which building a request fails with [new_err] and
    sending one with [do_err], when these are given. *)
Definition refusing (w : World) (new_err do_err : option error) : World :=
  {| playwright_Run := playwright_Run w;
     Firefox_Launch := Firefox_Launch w;
     browser_NewContext := browser_NewContext w;
     context_NewPage := context_NewPage w;
     context_Cookies := context_Cookies w;
     http_Get := http_Get w;
     http_NewRequest := λ method url,
       match new_err with Some e => Some e | None => http_NewRequest w method url end;
     URL_String := URL_String w;
     client_Do := λ req,
       match do_err with Some e => inr e | None => client_Do w req end;
     xml_Unmarshal_init := xml_Unmarshal_init w;
     xml_Unmarshal_final := xml_Unmarshal_final w;
     os_WriteFile_outcome := os_WriteFile_outcome w;
     umask := umask w;
     range_headers := range_headers w;
     range_headers_perm := range_headers_perm w |}.

(** The initialization stage cannot succeed on [url]: the GET fails, or the
    request cannot be built, or the POST fails, or its response does not
    decode. *)
Definition init_fails (w : World) (url : string) : Prop :=
  match http_Get w url with
  | inr _ => True
  | inl resp =>
      match http_NewRequest w "POST" (Request_URL resp) with
      | Some _ => True
      | None =>
          match client_Do w (init_request w (Request_URL resp)) with
          | inr _ => True
          | inl resp1 =>
              match xml_Unmarshal_init w (ReadAll_data resp1) with
              | inr _ => True
              | inl _ => False
              end
          end
      end
  end.

(** The first token cookie that the polls [k], [k + 1], ... find, within
    [fuel] polls. *)
Fixpoint first_jar (w : World) (name : string) (k fuel : nat) : option NetworkCookie :=
  match fuel with
  | O => None
  | S fuel' =>
      match first_match name (context_Cookies w k).1 with
      | Some c => Some c
      | None => first_jar w name (S k) fuel'
      end
  end.

(** How a run ends, as a table over the answers of the world, the way
    [os.WriteFile] ends being one of them: neither the logger nor the status
    codes or read errors of the responses appear in it. *)
Definition verdict (w : World) (srv file : string) (fuel : nat) : Outcome :=
  if negb ((playwright_Run w).1 && (Firefox_Launch w).1 && (browser_NewContext w).1)
  then Panic
  else
    match http_Get w srv with
    | inr _ => Exit 1
    | inl resp =>
        let u := Request_URL resp in
        match http_NewRequest w "POST" u with
        | Some _ => Exit 1
        | None =>
            match client_Do w (init_request w u) with
            | inr _ => Exit 1
            | inl resp1 =>
                match xml_Unmarshal_init w (ReadAll_data resp1) with
                | inr _ => Exit 1
                | inl initResp =>
                    if negb (context_NewPage w).1 then Panic
                    else
                      match first_jar w (TokenCookieName initResp) 0 fuel with
                      | None => Spinning
                      | Some c =>
                          match client_Do w (final_request w u
                                  (Opaque_Value (Opaque_ initResp)) (Value c)) with
                          | inr _ => Exit 1
                          | inl resp2 =>
                              match xml_Unmarshal_final w (ReadAll_data resp2) with
                              | inr _ => Exit 1
                              | inl fr =>
                                  match os_WriteFile_outcome w file
                                          (Sprintf config_format
                                             [Cookie fr; Fingerprint fr; u]) with
                                  | WriteOk => Exit 0
                                  | _ => Exit 1
                                  end
                              end
                          end
                      end
                end
            end
        end
    end.

(** Flags for a debug run with JSON records. *)
Definition debug_flags : Flags :=
  {| server := "https://vpn.example.com"; ocFile := "/tmp/oc";
     logFormat := "json"; logLevel := "debug" |}.

(** [m'] does what [m] does from every state in which [m] does not give up
    for lack of fuel. *)
Definition agree {A} (m m' : M A) : Prop :=
  ∀ s, (m s).2 ≠ Stop Spinning → m' s = m s.

(** The final response holds the session cookie but does not decode. *)
Definition garbled_world : World :=
  {| playwright_Run := playwright_Run spec_world;
     Firefox_Launch := Firefox_Launch spec_world;
     browser_NewContext := browser_NewContext spec_world;
     context_NewPage := context_NewPage spec_world;
     context_Cookies := context_Cookies spec_world;
     http_Get := http_Get spec_world;
     http_NewRequest := http_NewRequest spec_world;
     URL_String := URL_String spec_world;
     client_Do := λ r,
       inl (ok_response (URL r)
              (if contains (Body r) "auth-reply"
               then "<session-token>sesscookie</session-token"
               else "INIT")
              200 None);
     xml_Unmarshal_init := xml_Unmarshal_init spec_world;
     xml_Unmarshal_final := λ _, inr "XML syntax error: unexpected EOF";
     os_WriteFile_outcome := os_WriteFile_outcome spec_world;
     umask := umask spec_world;
     range_headers := range_headers spec_world;
     range_headers_perm := range_headers_perm spec_world |}.

(** The kinds of the actions of a run, but for the records. *)
Inductive Kind :=
| KRun | KLaunch | KContext | KPage | KGet | KPost | KDecode | KGoto
| KPoll | KSleep | KClose | KWrite.

#[global] Instance Kind_eq_dec : EqDecision Kind.
Proof. solve_decision. Defined.

Definition kind_of (e : Event) : option Kind :=
  match e with
  | EvLog _ => None
  | EvPlaywrightRun => Some KRun
  | EvLaunch _ => Some KLaunch
  | EvNewContext => Some KContext
  | EvNewPage => Some KPage
  | EvGet _ => Some KGet
  | EvDo _ => Some KPost
  | EvUnmarshal _ => Some KDecode
  | EvGoto _ => Some KGoto
  | EvCookies _ => Some KPoll
  | EvBrowserClose => Some KClose
  | EvSleep _ => Some KSleep
  | EvWriteFile _ _ _ => Some KWrite
  end.

Definition kinds := pick kind_of.

(** The actions up to the login wait, [n] polls that find no token, and
    the actions from the poll that finds it on. *)
Definition opening : list Kind :=
  [KRun; KLaunch; KContext; KPage; KGet; KPost; KDecode; KGoto].

Definition waiting (n : nat) : list Kind := mjoin (replicate n [KPoll; KSleep]).

Definition closing : list Kind := [KPoll; KClose; KPost; KDecode].

(** The actions of a run that goes through after [n] idle polls. *)
Definition script (n : nat) : list Kind :=
  opening ++ waiting n ++ closing ++ [KWrite].

(** * Properties *)

(** ** Sanity checks of the library models *)

Example Sprintf_two_operands : Sprintf "a=%s;b=%s" ["x"; "y"] = "a=x;b=y".
Proof. reflexivity. Qed.

Example Sprintf_missing_operand : Sprintf "a=%s;b=%s" ["x"] = "a=x;b=%!s(MISSING)".
Proof. reflexivity. Qed.

Example Sprintf_operand_is_not_a_format : Sprintf "a=%s" ["%s"] = "a=%s".
Proof. reflexivity. Qed.

Example canonical_key_http : CanonicalMIMEHeaderKey "X-Support-HTTP-Auth" = "X-Support-Http-Auth".
Proof. reflexivity. Qed.

Example canonical_key_lower : CanonicalMIMEHeaderKey "user-agent" = "User-Agent".
Proof. reflexivity. Qed.

Example canonical_key_space : CanonicalMIMEHeaderKey "user agent" = "user agent".
Proof. reflexivity. Qed.

Example flag_Parse_both_forms :
  flag_Parse ["-server"; "https://vpn.example.com"; "--config=/tmp/oc"; "rest"] =
  inl {| server := "https://vpn.example.com"; ocFile := "/tmp/oc";
         logFormat := "text"; logLevel := "info" |}.
Proof. reflexivity. Qed.

Example flag_Parse_help : flag_Parse ["-log-level"; "debug"; "-h"] = inr ErrHelp.
Proof. reflexivity. Qed.

Example flag_Parse_undefined :
  flag_Parse ["-verbose"] = inr (ParseFails "flag provided but not defined: -verbose").
Proof. reflexivity. Qed.

Example flag_Parse_no_value :
  flag_Parse ["-server"] = inr (ParseFails "flag needs an argument: -server").
Proof. reflexivity. Qed.

(** ** Running the monad *)

Lemma bind_run {A B} (m : M A) (k : A → M B) s :
  (m ≫= k) s = match m s with
               | (s', Ok a) => k a s'
               | (s', Stop o) => (s', Stop o)
               end.
Proof. reflexivity. Qed.

Lemma add_trace_app s a b : add_trace (add_trace s a) b = add_trace s (a ++ b).
Proof. unfold add_trace; simpl. by rewrite app_assoc. Qed.

Lemma add_trace_nil s : add_trace s [] = s.
Proof. destruct s; unfold add_trace; simpl. by rewrite app_nil_r. Qed.

Lemma log_if_err_run err m s :
  log_if_err err m s = (add_trace s (err_log (log s) err m), Ok tt).
Proof. destruct err; simpl; [done|]. by rewrite add_trace_nil. Qed.

Lemma log_at_run lvl m args s :
  log_at lvl m args s =
  (add_trace s [EvLog {| level := lvl; msg := m; attrs := with_attrs (log s) ++ args |}],
   Ok tt).
Proof. reflexivity. Qed.

(** ** The Config Writer *)

Lemma writeOCConfig_run w cookie fingerprint srv file s :
  let content := Sprintf config_format [cookie; fingerprint; srv] in
  let s1 := add_trace s [EvWriteFile file content perm_0600] in
  let written d :=
    {| log := log s; polls := polls s; trace := trace s1;
       fs := write_data file d (open_trunc (umask w) file perm_0600 (fs s)) |} in
  writeOCConfig w cookie fingerprint srv file s =
  match os_WriteFile_outcome w file content with
  | WriteOk =>
      (add_trace (written content)
         [EvLog {| level := LevelInfo;
                   msg := "successfully written authentication details to file";
                   attrs := with_attrs (log s) ++ [("file", file)] |}], Ok tt)
  | OpenFails e =>
      (add_trace s1
         [EvLog {| level := LevelError;
                   msg := "failed to write authentication details to file";
                   attrs := with_attrs (log s) ++ [("file", file); ("err", e)] |}],
       Stop (Exit 1))
  | WriteFails n e =>
      (add_trace (written (String.substring 0 n content))
         [EvLog {| level := LevelError;
                   msg := "failed to write authentication details to file";
                   attrs := with_attrs (log s) ++ [("file", file); ("err", e)] |}],
       Stop (Exit 1))
  end.
Proof.
  intros content s1 written. unfold writeOCConfig, os_WriteFile.
  rewrite !bind_run. unfold emit. unfold WriteFile_files.
  fold content. destruct (os_WriteFile_outcome w file content); reflexivity.
Qed.

(** C5: for every cookie, fingerprint and server string, a call of the
    Config Writer whose write succeeds leaves a file whose content is exactly
    the three lines [cookie=<cookie>], [servercert=<fingerprint>] and
    [# host=<server>], each ended by a newline.  The witness is the instance
    of the specification: cookie C1, fingerprint F1 and server
    https://vpn.example.com. *)
Theorem config_writer_three_lines w cookie fingerprint srv file s :
  os_WriteFile_outcome w file (Sprintf config_format [cookie; fingerprint; srv]) = WriteOk →
  ∃ s' f,
    writeOCConfig w cookie fingerprint srv file s = (s', Ok tt) ∧
    fs s' !! file = Some f ∧
    data f = "cookie=" +:+ cookie +:+ nl +:+
             "servercert=" +:+ fingerprint +:+ nl +:+
             "# host=" +:+ srv +:+ nl.
Proof.
  intros Hok. rewrite writeOCConfig_run, Hok.
  unfold write_data, open_trunc.
  destruct (fs s !! file) as [old|] eqn:Hold; rewrite lookup_insert_eq;
    eexists _, _; (split; [reflexivity|]); simpl;
    rewrite lookup_insert_eq; done.
Qed.

Lemma config_writer_three_lines_witness :
  ∃ s' f,
    writeOCConfig spec_world "C1" "F1" "https://vpn.example.com" "/tmp/oc" (boot ∅)
      = (s', Ok tt) ∧
    fs s' !! "/tmp/oc" = Some f ∧
    data f = "cookie=C1" +:+ nl +:+ "servercert=F1" +:+ nl +:+
             "# host=https://vpn.example.com" +:+ nl.
Proof.
  apply (config_writer_three_lines spec_world "C1" "F1" "https://vpn.example.com"
           "/tmp/oc" (boot ∅)).
  reflexivity.
Defined.

(** C8: every call of the Config Writer asks [os.WriteFile] for mode 0600,
    the owner's read and write bits and no other; a file it creates gets
    these bits less the umask, so never a bit outside 0600, and exactly 0600
    when the umask leaves the owner's bits alone; when the write fails the
    error is logged and the process exits with status 1. *)
Theorem config_writer_owner_only w cookie fingerprint srv file s :
  let content := Sprintf config_format [cookie; fingerprint; srv] in
  let res := writeOCConfig w cookie fingerprint srv file s in
  (∃ r, trace res.1 = trace s ++ [EvWriteFile file content perm_0600; EvLog r] ∧
        (os_WriteFile_outcome w file content ≠ WriteOk → level r = LevelError)) ∧
  (∀ i, N.testbit perm_0600 i = true ↔ i = 8%N ∨ i = 7%N) ∧
  (fs s !! file = None →
   (∀ e, os_WriteFile_outcome w file content ≠ OpenFails e) →
   ∃ f, fs res.1 !! file = Some f ∧
        mode f = N.ldiff perm_0600 (umask w) ∧
        N.ldiff (mode f) perm_0600 = 0%N ∧
        (N.land (umask w) perm_0600 = 0%N → mode f = perm_0600)) ∧
  (os_WriteFile_outcome w file content ≠ WriteOk → res.2 = Stop (Exit 1)) ∧
  (os_WriteFile_outcome w file content = WriteOk → res.2 = Ok tt).
Proof.
  intros content res. subst res. rewrite writeOCConfig_run. fold content.
  split_and!.
  - destruct (os_WriteFile_outcome w file content); simpl;
      eexists; (split; [by rewrite <- app_assoc|]); simpl; done.
  - intros i. split.
    + intros Hi. destruct (decide (i < 9)%N) as [Hlt|Hge].
      * assert (Hc : i ∈ [0;1;2;3;4;5;6;7;8]%N).
        { rewrite !elem_of_cons. lia. }
        rewrite !elem_of_cons in Hc.
        destruct Hc as [->|[->|[->|[->|[->|[->|[->|[->|[->|Hc]]]]]]]]];
          try discriminate Hi; auto. by apply elem_of_nil in Hc.
      * rewrite N.bits_above_log2 in Hi; [done|].
        change (N.log2 perm_0600) with 8%N. lia.
    + intros [->| ->]; reflexivity.
  - intros Hnew Hopen.
    assert (Hmode : ∀ d, write_data file d (open_trunc (umask w) file perm_0600 (fs s)) !! file
                     = Some {| mode := N.ldiff perm_0600 (umask w); data := d |}).
    { intros d. unfold write_data, open_trunc. rewrite Hnew, lookup_insert_eq.
      simpl. by rewrite lookup_insert_eq. }
    assert (Hbits : N.ldiff (N.ldiff perm_0600 (umask w)) perm_0600 = 0%N).
    { apply N.bits_inj_0. intros n. rewrite !N.ldiff_spec.
      destruct (N.testbit perm_0600 n); simpl; [by rewrite andb_false_r | done]. }
    assert (Hsame : N.land (umask w) perm_0600 = 0%N → N.ldiff perm_0600 (umask w) = perm_0600).
    { intros Hz. apply N.bits_inj. intros n. rewrite N.ldiff_spec.
      assert (Hn := f_equal (λ x, N.testbit x n) Hz). cbv beta in Hn.
      rewrite N.land_spec, N.bits_0 in Hn.
      destruct (N.testbit perm_0600 n), (N.testbit (umask w) n); done. }
    destruct (os_WriteFile_outcome w file content) as [|e|n e]; simpl.
    + eexists. rewrite Hmode. done.
    + by destruct (Hopen e).
    + eexists. rewrite Hmode. done.
  - intros Hne. by destruct (os_WriteFile_outcome w file content).
  - by intros ->.
Qed.

Lemma config_writer_owner_only_witness :
  (writeOCConfig denied_world "C1" "F1" "https://vpn.example.com" "/tmp/oc" (boot ∅)).2
    = Stop (Exit 1) ∧
  ∃ f, fs (writeOCConfig spec_world "C1" "F1" "https://vpn.example.com" "/tmp/oc" (boot ∅)).1
         !! "/tmp/oc" = Some f ∧ mode f = perm_0600.
Proof.
  split.
  - apply (config_writer_owner_only denied_world "C1" "F1" "https://vpn.example.com"
             "/tmp/oc" (boot ∅)).
    discriminate.
  - destruct (config_writer_owner_only spec_world "C1" "F1" "https://vpn.example.com"
                "/tmp/oc" (boot ∅)) as (_ & _ & Hnew & _).
    destruct Hnew as (f & Hf & Hm & _ & _); [reflexivity | discriminate |].
    exists f. split; [exact Hf | rewrite Hm; reflexivity].
Defined.

(** C9: when the output path names an existing file, a successful write
    replaces its whole content and keeps its permission bits; a file that
    was readable by others still is, now holding the credentials; no other
    file changes. *)
Theorem config_writer_keeps_existing_mode w cookie fingerprint srv file s old :
  let content := Sprintf config_format [cookie; fingerprint; srv] in
  let s' := (writeOCConfig w cookie fingerprint srv file s).1 in
  fs s !! file = Some old →
  os_WriteFile_outcome w file content = WriteOk →
  fs s' !! file = Some {| mode := mode old; data := content |} ∧
  (N.testbit (mode old) 2 = true →
   ∃ f, fs s' !! file = Some f ∧ data f = content ∧ N.testbit (mode f) 2 = true) ∧
  (∀ other, other ≠ file → fs s' !! other = fs s !! other).
Proof.
  intros content s' Hold Hok. subst s'. rewrite writeOCConfig_run. fold content.
  rewrite Hok. simpl. unfold write_data, open_trunc. rewrite Hold, lookup_insert_eq.
  simpl. rewrite insert_insert_eq. split_and!.
  - by rewrite lookup_insert_eq.
  - intros Hbit. eexists. rewrite lookup_insert_eq. done.
  - intros other Hne. by rewrite lookup_insert_ne.
Qed.

Lemma config_writer_keeps_existing_mode_witness :
  fs (writeOCConfig spec_world "C1" "F1" "https://vpn.example.com" "/tmp/oc"
        (boot stale_files)).1 !! "/tmp/oc"
  = Some {| mode := perm_0644;
            data := Sprintf config_format ["C1"; "F1"; "https://vpn.example.com"] |}.
Proof.
  apply (config_writer_keeps_existing_mode spec_world "C1" "F1"
           "https://vpn.example.com" "/tmp/oc" (boot stale_files)
           {| mode := perm_0644; data := "cookie=old" |});
    reflexivity.
Defined.

(** ** The gateway client *)

Lemma ret_run {A} (a : A) s : (mret a : M A) s = (s, Ok a).
Proof. reflexivity. Qed.

Lemma emit_run e s : emit e s = (add_trace s [e], Ok tt).
Proof. reflexivity. Qed.

Lemma os_Exit_run {A} code s : (os_Exit code : M A) s = (s, Stop (Exit code)).
Proof. reflexivity. Qed.

Lemma log_add_trace s evs : log (add_trace s evs) = log s.
Proof. reflexivity. Qed.

(** One step of symbolic execution of a monadic program. *)
Ltac exec_step :=
  first
    [ rewrite bind_run
    | rewrite log_at_run
    | rewrite log_if_err_run
    | rewrite emit_run
    | rewrite os_Exit_run
    | rewrite ret_run
    | rewrite add_trace_app
    | rewrite log_add_trace
    | progress cbn beta iota ].

Ltac exec := unfold log_Info, log_Debug, log_Error; repeat exec_step.

Lemma makePostReq_run w p u s :
  makePostReq w p u s =
  match http_NewRequest w "POST" u with
  | Some e =>
      (add_trace s [record (log s) LevelError "Failed to create http request" [("err", e)]],
       Stop (Exit 1))
  | None =>
      let req := build_request (range_headers w p) p u in
      match client_Do w req with
      | inr e =>
          (add_trace s
             [EvDo req;
              record (log s) LevelError "failed to POST request to the server"
                [("server", URL_String w u); ("err", e)]],
           Stop (Exit 1))
      | inl resp =>
          (add_trace s
             [EvDo req;
              record (log s) LevelInfo "successfullly received response from server"
                [("url", Request_URL resp)];
              record (log s) LevelDebug "received response"
                [("body", ReadAll_data resp); ("url", Request_URL resp)]],
           Ok (ReadAll_data resp))
      end
  end.
Proof.
  unfold makePostReq.
  destruct (http_NewRequest w "POST" u) as [e|]; [by exec|].
  cbv zeta. destruct (client_Do w _) as [resp|e]; by exec.
Qed.

Lemma foldl_Header_Set (l : list (string * string)) (h : Header) :
  foldl (λ h kv, Header_Set h kv.1 kv.2) h l
  = list_to_map (rev (header_entry <$> l)) ∪ h.
Proof.
  revert h. induction l as [|kv l IH]; intros h; simpl.
  - by rewrite (left_id_L ∅ (∪)).
  - rewrite IH, list_to_map_app. simpl. unfold Header_Set.
    rewrite <- (assoc_L (∪)). f_equal.
    rewrite insert_empty, <- insert_union_singleton_l. reflexivity.
Qed.

Lemma build_request_header order p u :
  order ≡ₚ map_to_list headers →
  Header_ (build_request order p u) = sent_header.
Proof.
  intros Hperm. unfold build_request; simpl.
  rewrite foldl_Header_Set, (right_id_L ∅ (∪)).
  transitivity (list_to_map (header_entry <$> map_to_list headers) : Header).
  - apply list_to_map_proper.
    + rewrite <- Permutation_rev, Hperm. 
      apply (bool_decide_unpack _). vm_compute. reflexivity.
    + by rewrite <- Permutation_rev, Hperm.
  - vm_compute. reflexivity.
Qed.

(** ** The login wait *)

Lemma range_cookies_run name jar s :
  range_cookies name jar s =
  match first_match name jar with
  | Some c => (add_trace s [received_token (log s)], Ok (Some c))
  | None => (s, Ok None)
  end.
Proof.
  induction jar as [|c jar IH]; simpl; [done|].
  destruct (Name c =? name); [by exec | apply IH].
Qed.

Lemma first_match_Some name jar c :
  first_match name jar = Some c ↔
  ∃ pre post, jar = pre ++ c :: post ∧ Name c = name ∧ ∀ c', c' ∈ pre → Name c' ≠ name.
Proof.
  unfold first_match. induction jar as [|x jar IH]; simpl.
  - split; [done|]. intros (pre & post & H & _). by destruct pre.
  - destruct (String.eqb_spec (Name x) name) as [Heq|Hne].
    + split.
      * intros [= ->]. exists [], jar. split_and!; [done..|]. by intros c' ?%elem_of_nil.
      * intros ([|y pre] & post & H & Hn & Hpre); simplify_eq/=; [done|].
        destruct (Hpre y); [left | done].
    + rewrite IH. split.
      * intros (pre & post & -> & Hn & Hpre). exists (x :: pre), post.
        split_and!; [done..|]. intros c' [->|?]%elem_of_cons; auto.
      * intros ([|y pre] & post & H & Hn & Hpre); simplify_eq/=.
        exists pre, post. split_and!; [done..|]. intros c' ?. apply Hpre. by right.
Qed.

Lemma first_match_None name jar :
  first_match name jar = None ↔ ∀ c, c ∈ jar → Name c ≠ name.
Proof.
  unfold first_match. induction jar as [|x jar IH]; simpl.
  - split; [|done]. by intros _ c ?%elem_of_nil.
  - destruct (String.eqb_spec (Name x) name) as [Heq|Hne].
    + split; [done|]. intros H. destruct (H x); [left | done].
    + rewrite IH. split.
      * intros H c [->|?]%elem_of_cons; auto.
      * intros H c ?. apply H. by right.
Qed.

Lemma login_wait_step w name fuel s :
  login_wait w name (S fuel) s =
  let s1 := after_polls s 1 (poll_events (log s) w (polls s)) in
  match first_match name (context_Cookies w (polls s)).1 with
  | Some c => (add_trace s1 [received_token (log s); EvBrowserClose], Ok c)
  | None => login_wait w name fuel (add_trace s1 [EvSleep (10 * Millisecond)])
  end.
Proof.
  cbn [login_wait]. rewrite bind_run. unfold context_Cookies_call.
  destruct (context_Cookies w (polls s)) as [jar err] eqn:Hjar.
  exec. rewrite range_cookies_run. cbn [fst snd].
  destruct (first_match name jar) as [c|]; exec; unfold after_polls, add_trace, poll_events;
    rewrite Hjar; cbn; rewrite <- ?app_assoc; cbn; repeat f_equal; lia.
Qed.

Lemma State_eq (s1 s2 : State) :
  log s1 = log s2 → fs s1 = fs s2 → polls s1 = polls s2 → trace s1 = trace s2 →
  s1 = s2.
Proof. destruct s1, s2; simpl; congruence. Qed.

Lemma after_polls_0 s : after_polls s 0 [] = s.
Proof.
  destruct s; unfold after_polls; simpl. rewrite app_nil_r. f_equal. lia.
Qed.

(** As long as no jar holds the cookie, the loop polls, sleeps and goes on. *)
Lemma login_wait_idle w name n fuel s :
  (∀ k, k < n → first_match name (context_Cookies w (polls s + k)).1 = None) →
  login_wait w name (n + fuel) s =
  login_wait w name fuel (after_polls s n (idle_rounds (log s) w (polls s) n)).
Proof.
  revert s. induction n as [|n IH]; intros s Hnone.
  - by rewrite after_polls_0.
  - change (S n + fuel) with (S (n + fuel)). rewrite login_wait_step. cbv zeta.
    specialize (Hnone 0 ltac:(lia)) as H0. rewrite Nat.add_0_r in H0. rewrite H0.
    rewrite IH.
    + f_equal. apply State_eq; cbn; [done | done | lia |].
      rewrite Nat.add_1_r, <- !app_assoc. reflexivity.
    + intros k Hk. cbn. replace (polls s + 1 + k) with (polls s + S k) by lia.
      apply Hnone. lia.
Qed.

Lemma login_wait_spinning w name fuel s :
  (∀ k, k < fuel → first_match name (context_Cookies w (polls s + k)).1 = None) →
  login_wait w name fuel s =
  (after_polls s fuel (idle_rounds (log s) w (polls s) fuel), Stop Spinning).
Proof.
  intros Hnone. rewrite <- (Nat.add_0_r fuel) at 1. by rewrite login_wait_idle.
Qed.

Lemma login_wait_found w name n fuel s c :
  n < fuel →
  (∀ k, k < n → first_match name (context_Cookies w (polls s + k)).1 = None) →
  first_match name (context_Cookies w (polls s + n)).1 = Some c →
  login_wait w name fuel s =
  (after_polls s (S n)
     (idle_rounds (log s) w (polls s) n ++ poll_events (log s) w (polls s + n) ++
      [received_token (log s); EvBrowserClose]),
   Ok c).
Proof.
  intros Hn Hnone Hsome.
  replace fuel with (n + S (fuel - S n)) by lia.
  rewrite login_wait_idle by done. rewrite login_wait_step. cbv zeta. cbn [polls after_polls log].
  rewrite Hsome. f_equal. apply State_eq; cbn; [done | done | lia |].
  rewrite <- !app_assoc. reflexivity.
Qed.

(** Within any number of polls, either none finds the cookie or there is a
    first one that does. *)
Lemma first_poll w name k0 fuel :
  (∀ k, k < fuel → first_match name (context_Cookies w (k0 + k)).1 = None) ∨
  ∃ n c, n < fuel ∧
    (∀ k, k < n → first_match name (context_Cookies w (k0 + k)).1 = None) ∧
    first_match name (context_Cookies w (k0 + n)).1 = Some c.
Proof.
  induction fuel as [|fuel [IH|(n & c & Hn & Hbefore & Hc)]].
  - left. lia.
  - destruct (first_match name (context_Cookies w (k0 + fuel)).1) as [c|] eqn:Hc.
    + right. exists fuel, c. split_and!; [lia | intros; apply IH; lia | done].
    + left. intros k Hk. destruct (decide (k = fuel)) as [->|]; [done|]. apply IH. lia.
  - right. exists n, c. split_and!; [lia | done..].
Qed.

Lemma pick_app {A} (f : Event → option A) a b : pick f (a ++ b) = pick f a ++ pick f b.
Proof. apply omap_app. Qed.

Lemma pick_cons {A} (f : Event → option A) e tr :
  pick f (e :: tr) = option_list (f e) ++ pick f tr.
Proof. unfold pick; simpl. by destruct (f e). Qed.

Lemma pick_nil {A} (f : Event → option A) : pick f [] = [].
Proof. reflexivity. Qed.

Lemma pick_err_log {A} (f : Event → option A) l err m :
  (∀ r, f (EvLog r) = None) → pick f (err_log l err m) = [].
Proof. intros Hf. destruct err; [|done]. unfold pick; simpl. by rewrite Hf. Qed.

Lemma pick_idle_rounds {A} (f : Event → option A) l w k n :
  (∀ r, f (EvLog r) = None) → (∀ i, f (EvCookies i) = None) →
  pick f (idle_rounds l w k n) = mjoin (replicate n (option_list (f (EvSleep (10 * Millisecond))))).
Proof.
  intros Hlog Hcookies. revert k. induction n as [|n IH]; intros k; [done|].
  cbn [idle_rounds]. unfold poll_events.
  repeat (rewrite pick_app || rewrite pick_cons).
  rewrite pick_err_log, Hcookies, IH by done. reflexivity.
Qed.

Lemma mjoin_replicate_singleton {A} (x : A) n : mjoin (replicate n [x]) = replicate n x.
Proof. induction n as [|n IH]; [done|]. cbn. f_equal. exact IH. Qed.

Lemma mjoin_replicate_nil {A} n : mjoin (replicate n (@nil A)) = [].
Proof. induction n as [|n IH]; [done|]. cbn. exact IH. Qed.

Lemma pick_sleep_idle_rounds l w k n :
  pick sleep_of (idle_rounds l w k n) = replicate n (10 * Millisecond)%Z.
Proof. rewrite pick_idle_rounds by done. apply mjoin_replicate_singleton. Qed.

Lemma sleeps_idle_rounds l w k n :
  sleeps (idle_rounds l w k n) = replicate n (10 * Millisecond)%Z.
Proof. apply pick_sleep_idle_rounds. Qed.

Lemma quiet_idle_rounds {A} (f : Event → option A) l w k n :
  (∀ r, f (EvLog r) = None) → (∀ i, f (EvCookies i) = None) →
  (∀ d, f (EvSleep d) = None) →
  pick f (idle_rounds l w k n) = [].
Proof.
  intros Hlog Hcookies Hsleep. rewrite pick_idle_rounds, Hsleep by done.
  apply mjoin_replicate_nil.
Qed.

(** Compute one projection of a trace built by symbolic execution. *)
Ltac project_one :=
  repeat first
    [ match goal with
      | H : pick ?f (trace ?s) = _ |- context [pick ?f (trace ?s)] => rewrite H
      end
    | rewrite pick_app
    | rewrite pick_cons
    | rewrite pick_nil
    | rewrite pick_err_log by done
    | rewrite quiet_idle_rounds by done
    | rewrite pick_sleep_idle_rounds
    | progress unfold poll_events
    | progress cbn [option_list app record received_token
                    sleep_of post_of write_of unmarshal_of close_of goto_of get_of] ];
  rewrite ?app_nil_r.

Lemma with_attrs_setupLogger f l : with_attrs (setupLogger f l) = [("ts", "utc")].
Proof. reflexivity. Qed.

(** Forget how the state [S] was reached: keep its logger, its files, its
    poll counter and the projections of its trace. *)
Ltac checkpoint S :=
  let s1 := fresh "s" in
  let Heq := fresh "Heq" in
  remember S as s1 eqn:Heq;
  let Hlog := fresh "Hlog" in
  let Hfs := fresh "Hfs" in
  let Hpolls := fresh "Hpolls" in
  pose proof (f_equal log Heq) as Hlog;
  pose proof (f_equal fs Heq) as Hfs;
  pose proof (f_equal polls Heq) as Hpolls;
  cbn [log fs polls trace after_polls add_trace with_log boot] in Hlog, Hfs, Hpolls;
  repeat match goal with
    | H : log ?s = _ |- _ => tryif constr_eq H Hlog then fail else rewrite H in Hlog
    | H : fs ?s = _ |- _ => tryif constr_eq H Hfs then fail else rewrite H in Hfs
    | H : polls ?s = _ |- _ => tryif constr_eq H Hpolls then fail else rewrite H in Hpolls
    end;
  let Hsl := fresh "Hsleeps" in
  let Hpo := fresh "Hposts" in
  let Hwr := fresh "Hwrites" in
  let Hcl := fresh "Hcloses" in
  let Hgo := fresh "Hgotos" in
  let Hge := fresh "Hgets" in
  eassert (Hsl : pick sleep_of (trace s1) = _)
    by (rewrite Heq; cbn [trace after_polls add_trace with_log boot]; project_one; reflexivity);
  eassert (Hpo : pick post_of (trace s1) = _)
    by (rewrite Heq; cbn [trace after_polls add_trace with_log boot]; project_one; reflexivity);
  eassert (Hwr : pick write_of (trace s1) = _)
    by (rewrite Heq; cbn [trace after_polls add_trace with_log boot]; project_one; reflexivity);
  eassert (Hcl : pick close_of (trace s1) = _)
    by (rewrite Heq; cbn [trace after_polls add_trace with_log boot]; project_one; reflexivity);
  eassert (Hgo : pick goto_of (trace s1) = _)
    by (rewrite Heq; cbn [trace after_polls add_trace with_log boot]; project_one; reflexivity);
  eassert (Hge : pick get_of (trace s1) = _)
    by (rewrite Heq; cbn [trace after_polls add_trace with_log boot]; project_one; reflexivity);
  clear Heq.

(** At a leaf of the symbolic execution the final state [s] is known by an
    equation.  Keep its logger, files and trace as equations and replace
    every projection of its trace in the goal by its value. *)
Ltac leaf s :=
  let Hs := fresh "Hs" in
  intros [= Hs <-];
  let Hlog := fresh "Hlog" in
  let Hfs := fresh "Hfs" in
  let Htr := fresh "Htr" in
  pose proof (f_equal log Hs) as Hlog;
  pose proof (f_equal fs Hs) as Hfs;
  pose proof (f_equal trace Hs) as Htr;
  cbn [log fs trace after_polls add_trace with_log boot] in Hlog, Hfs, Htr;
  repeat match goal with
    | H : log ?s' = _ |- _ => tryif constr_eq H Hlog then fail else rewrite H in Hlog
    | H : fs ?s' = _ |- _ => tryif constr_eq H Hfs then fail else rewrite H in Hfs
    end;
  clear Hs;
  unfold reached_finalization, finalization_end,
    sleeps, posts, writes, unmarshals, closes, gotos, gets;
  repeat match goal with
    | |- context [pick ?f (trace s)] =>
        let H := fresh in
        eassert (H : pick f (trace s) = _)
          by (rewrite <- Htr; project_one; reflexivity);
        rewrite H; clear H
    end;
  rewrite <- ?Hlog, <- ?Hfs; cbn [with_attrs Logger_With];
  rewrite ?with_attrs_setupLogger.

(** C3: whatever the jars are, the wait returns a cookie only if its name
    equals the token cookie name; the cookie is the first of that name, in
    jar order, of the first poll whose jar has one, every cookie before it
    in that jar and in the earlier jars being ignored; the browser is closed
    right after that poll, before any other sleep or poll, and was not
    closed before.  When the wait gives up for lack of fuel, no jar polled
    so far held such a cookie. *)
Theorem login_wait_captures_first_match w name fuel s :
  match login_wait w name fuel s with
  | (s', Ok c) =>
      ∃ n pre post,
        n < fuel ∧
        (∀ k c', k < n → c' ∈ (context_Cookies w (polls s + k)).1 → Name c' ≠ name) ∧
        (context_Cookies w (polls s + n)).1 = pre ++ c :: post ∧
        (∀ c', c' ∈ pre → Name c' ≠ name) ∧
        Name c = name ∧
        polls s' = polls s + S n ∧
        ∃ idle,
          trace s' = trace s ++ idle ++ poll_events (log s) w (polls s + n) ++
                       [received_token (log s); EvBrowserClose] ∧
          closes idle = [] ∧
          sleeps idle = replicate n (10 * Millisecond)%Z
  | (s', Stop o) =>
      o = Spinning ∧
      ∀ k c', k < fuel → c' ∈ (context_Cookies w (polls s + k)).1 → Name c' ≠ name
  end.
Proof.
  destruct (first_poll w name (polls s) fuel) as [Hnone|(n & c & Hn & Hnone & Hc)].
  - rewrite login_wait_spinning by done. split; [done|].
    intros k c' Hk. by apply first_match_None, Hnone.
  - rewrite (login_wait_found _ _ n _ _ c) by done.
    apply first_match_Some in Hc as (pre & post & Hjar & Hname & Hpre).
    exists n, pre, post. split_and!; try done.
    + intros k c' Hk. by apply first_match_None, Hnone.
    + eexists. split; [reflexivity|]. split; [by apply quiet_idle_rounds | apply sleeps_idle_rounds].
Qed.

(** The jar of the specification's test: a decoy, then decoy and target.
    A cookie whose name differs in case only is a decoy too. *)
Example login_wait_ignores_decoys :
  (login_wait spec_world "ssotoken" 5 (boot ∅)).2
    = Ok {| Name := "ssotoken"; Value := "tok456" |} ∧
  polls (login_wait spec_world "ssotoken" 5 (boot ∅)).1 = 2 ∧
  (login_wait stalled_world "ssotoken" 5 (boot ∅)).2 = Stop Spinning.
Proof. vm_compute. done. Qed.

(** ** Whole runs *)

Lemma set_log_run l s : set_log l s = (with_log s l, Ok tt).
Proof. reflexivity. Qed.

Lemma log_With_stage_run name s :
  log_With_stage name s = (with_log s (Logger_With (log s) "stage" name), Ok tt).
Proof. reflexivity. Qed.

Lemma deref_run b s :
  deref b s = if b then (s, Ok tt) else (s, Stop Panic).
Proof. by destruct b. Qed.

Ltac run_step :=
  first
    [ exec_step
    | rewrite set_log_run
    | rewrite log_With_stage_run
    | rewrite deref_run
    | rewrite makePostReq_run
    | rewrite writeOCConfig_run
    | match goal with
      | H : log ?s = _ |- context [log ?s] => rewrite H
      | H : polls ?s = _ |- context [polls ?s] => rewrite H
      end
    | progress cbn [log fs polls trace add_trace with_log boot fst snd] ].

Ltac run_main := unfold log_Info, log_Debug, log_Error; repeat run_step.

(** A leaf that stops before the finalization stage. *)
Ltac early s :=
  leaf s; left;
  split_and!;
  [ apply (bool_decide_unpack _); vm_compute; reflexivity
  | try done | try done | try done | try (by left) | try (by left) ].

Lemma written_lookup mask name d perm (files : FS) :
  write_data name d (open_trunc mask name perm files) !! name =
  Some {| mode := match files !! name with
                  | Some f => mode f
                  | None => N.ldiff perm mask
                  end;
          data := d |}.
Proof.
  unfold write_data, open_trunc.
  destruct (files !! name) as [f|]; rewrite lookup_insert_eq; cbn;
    by rewrite lookup_insert_eq.
Qed.

(** A leaf inside the finalization stage. *)
Ltac late s resp resp1 initResp n c :=
  leaf s; right; split;
  [ apply (bool_decide_unpack _); vm_compute; reflexivity
  | exists resp, resp1, initResp, n, c; cbv zeta; split_and!; try done ].

Lemma run_cases w flags files fuel s o :
  run w flags files fuel = (s, o) →
  (¬ reached_finalization s ∧ o ≠ Exit 0 ∧
   writes (trace s) = [] ∧ closes (trace s) = [] ∧
   (posts (trace s) = [] ∨
    ∃ resp, http_Get w (server flags) = inl resp ∧
            posts (trace s) = [init_request w (Request_URL resp)]) ∧
   (gotos (trace s) = [] ∨
    o = Spinning ∧ sleeps (trace s) = replicate fuel (10 * Millisecond)%Z))
  ∨
  (reached_finalization s ∧
   ∃ resp resp1 initResp n c,
     http_Get w (server flags) = inl resp ∧
     client_Do w (init_request w (Request_URL resp)) = inl resp1 ∧
     xml_Unmarshal_init w (ReadAll_data resp1) = inl initResp ∧
     n < fuel ∧
     (∀ k, k < n →
        first_match (TokenCookieName initResp) (context_Cookies w k).1 = None) ∧
     first_match (TokenCookieName initResp) (context_Cookies w n).1 = Some c ∧
     let req := final_request w (Request_URL resp)
                  (Opaque_Value (Opaque_ initResp)) (Value c) in
     posts (trace s) = [init_request w (Request_URL resp); req] ∧
     closes (trace s) = [()] ∧
     gotos (trace s) = [LoginURL initResp] ∧
     gets (trace s) = [server flags] ∧
     sleeps (trace s) = replicate n (10 * Millisecond)%Z ∧
     finalization_end w flags (Request_URL resp) req s o).
Proof.
  unfold run, main_after_Parse. run_main.
  destruct (playwright_Run w) as [pw err1]. run_main.
  destruct pw; run_main.
  2:{ early s. }
  destruct (Firefox_Launch w) as [browser err2]. run_main.
  destruct browser; run_main; [|early s].
  destruct (browser_NewContext w) as [context err3]. run_main.
  destruct context; run_main; [|early s].
  destruct (context_NewPage w) as [page err4]. run_main.
  match goal with |- context [initializationStage w _ ?S] => checkpoint S end.
  unfold initializationStage. run_main.
  destruct (http_Get w (server flags)) as [resp|e] eqn:Hget; run_main; [|early s].
  destruct (http_NewRequest w "POST" (Request_URL resp)) as [e|] eqn:Hnew; run_main;
    [early s|].
  fold (init_request w (Request_URL resp)).
  destruct (client_Do w (init_request w (Request_URL resp))) as [resp1|e] eqn:Hdo; run_main.
  2:{ early s; try done. right. by exists resp. }
  destruct (xml_Unmarshal_init w _) as [initResp|e] eqn:Hinit; run_main.
  2:{ early s; try done. right. by exists resp. }
  destruct page; run_main.
  2:{ early s; try done. right. by exists resp. }
  match goal with |- context [login_wait w _ _ ?S] => checkpoint S end.
  destruct (first_poll w (TokenCookieName initResp) 0 fuel)
    as [Hnone|(n & c & Hn & Hnone & Hc)]; cbn [Nat.add] in *.
  { rewrite login_wait_spinning by (rewrite Hpolls0; intros k Hk; apply Hnone, Hk). run_main.
    early s; try done.
    - right. by exists resp.
    - by right. }
  rewrite (login_wait_found _ _ n _ _ c) by (by rewrite ?Hpolls0).
  run_main.
  match goal with |- context [finalizationStage w _ _ _ ?S] => checkpoint S end.
  unfold finalizationStage. run_main.
  rewrite Hnew. run_main.
  fold (final_request w (Request_URL resp) (Opaque_Value (Opaque_ initResp)) (Value c)).
  destruct (client_Do w (final_request w (Request_URL resp)
              (Opaque_Value (Opaque_ initResp)) (Value c))) as [resp2|e] eqn:Hdo2; run_main.
  2:{ late s resp resp1 initResp n c. by rewrite Hdo2. }
  destruct (xml_Unmarshal_final w (ReadAll_data resp2)) as [fr|e] eqn:Hfin; run_main.
  2:{ late s resp resp1 initResp n c. by rewrite Hdo2, Hfin. }
  cbv zeta.
  destruct (os_WriteFile_outcome w (ocFile flags)
              (Sprintf config_format [Cookie fr; Fingerprint fr; Request_URL resp]))
    as [|e|k e] eqn:Hwr; run_main;
    late s resp resp1 initResp n c; rewrite Hdo2, Hfin; cbv zeta; rewrite Hwr;
    (split; [done|]); try done.
  split; [done|]. eexists. split; [apply written_lookup | done].
Qed.


(** ** The claims about whole runs *)

Lemma Sprintf_final_format opaque token :
  Sprintf final_format [opaque; token] = auth_reply_document opaque token.
Proof. reflexivity. Qed.

Lemma Sprintf_config_format cookie fingerprint host :
  Sprintf config_format [cookie; fingerprint; host] = credential_lines cookie fingerprint host.
Proof. reflexivity. Qed.

(** C2: in every run that reaches the finalization stage, there was one
    GET, on the [--server] argument; the URL it resolved to is the target of
    both POST requests, the init one and the auth-reply one, and it is the
    host recorded in whatever is written to the output file. *)
Theorem resolved_url_used_throughout w flags files fuel :
  let s := (run w flags files fuel).1 in
  let o := (run w flags files fuel).2 in
  reached_finalization s →
  ∃ resp req1 req2,
    gets (trace s) = [server flags] ∧
    http_Get w (server flags) = inl resp ∧
    posts (trace s) = [req1; req2] ∧
    URL req1 = Request_URL resp ∧
    Body req1 = Sprintf init_format [Request_URL resp] ∧
    URL req2 = Request_URL resp ∧
    (∃ opaque token, Body req2 = Sprintf final_format [opaque; token]) ∧
    (∀ file content perm, (file, content, perm) ∈ writes (trace s) →
       file = ocFile flags ∧
       ∃ cookie fingerprint,
         content = credential_lines cookie fingerprint (Request_URL resp)) ∧
    (o = Exit 0 →
       ∃ f cookie fingerprint,
         fs s !! ocFile flags = Some f ∧
         data f = credential_lines cookie fingerprint (Request_URL resp)).
Proof.
  intros s o Hreached. subst s o.
  destruct (run w flags files fuel) as [s o] eqn:Hrun.
  apply run_cases in Hrun as [(Hnot & _)|(_ & Hfin)]; [done|]. cbn [fst snd] in *.
  destruct Hfin as (resp & resp1 & initResp & n & c & Hget & Hdo & Hinit & Hn & Hnone & Hc
                    & Hposts & Hcloses & Hgotos & Hgets & Hsleeps & Hend).
  exists resp, (init_request w (Request_URL resp)),
    (final_request w (Request_URL resp) (Opaque_Value (Opaque_ initResp)) (Value c)).
  split_and!; try done.
  - by eexists _, _.
  - intros file content perm Hin. unfold finalization_end in Hend.
    destruct (client_Do w (final_request _ _ _ _)) as [resp2|e].
    2:{ destruct Hend as [_ Hw]. rewrite Hw in Hin. by apply elem_of_nil in Hin. }
    destruct (xml_Unmarshal_final w (ReadAll_data resp2)) as [fr|e].
    2:{ destruct Hend as [_ Hw]. rewrite Hw in Hin. by apply elem_of_nil in Hin. }
    destruct Hend as [Hw _]. rewrite Hw in Hin.
    apply list_elem_of_singleton in Hin as [= -> -> ->]. split; [done|].
    by exists (Cookie fr), (Fingerprint fr).
  - intros ->. unfold finalization_end in Hend.
    destruct (client_Do w (final_request _ _ _ _)) as [resp2|e]; [|by destruct Hend].
    destruct (xml_Unmarshal_final w (ReadAll_data resp2)) as [fr|e]; [|by destruct Hend].
    destruct Hend as [_ Hend].
    destruct (os_WriteFile_outcome w _ _); try done.
    destruct Hend as (_ & f & Hf & Hdata). by exists f, (Cookie fr), (Fingerprint fr).
Qed.

Lemma resolved_url_used_throughout_witness :
  reached_finalization (run spec_world spec_flags ∅ 5).1 ∧
  ∃ resp req1 req2,
    http_Get spec_world (server spec_flags) = inl resp ∧
    posts (trace (run spec_world spec_flags ∅ 5).1) = [req1; req2] ∧
    URL req1 = Request_URL resp ∧ URL req2 = Request_URL resp.
Proof.
  assert (H : reached_finalization (run spec_world spec_flags ∅ 5).1).
  { apply (bool_decide_unpack _). vm_compute. reflexivity. }
  split; [exact H|].
  destruct (resolved_url_used_throughout spec_world spec_flags ∅ 5 H)
    as (resp & req1 & req2 & _ & Hget & Hposts & Hu1 & _ & Hu2 & _).
  exists resp, req1, req2. split_and!; assumption.
Defined.

(** C4: in every run that reaches the finalization stage, the body of the
    second request is the auth-reply document: client type auth-reply, the
    version and device-id elements of the init request, empty session-token
    and session-id elements, the opaque value of the parsed initialization
    response, verbatim, in the opaque element, and the value of the captured
    token cookie in an sso-token element under auth. *)
Theorem auth_reply_body w flags files fuel :
  let s := (run w flags files fuel).1 in
  reached_finalization s →
  ∃ resp1 initResp n tokenCookie req1 req2,
    posts (trace s) = [req1; req2] ∧
    client_Do w req1 = inl resp1 ∧
    xml_Unmarshal_init w (ReadAll_data resp1) = inl initResp ∧
    first_match (TokenCookieName initResp) (context_Cookies w n).1 = Some tokenCookie ∧
    (∀ k, k < n →
       first_match (TokenCookieName initResp) (context_Cookies w k).1 = None) ∧
    Body req2 =
      auth_reply_document (Opaque_Value (Opaque_ initResp)) (Value tokenCookie) ∧
    contains (Body req1) version_element = true ∧
    contains (Body req2) version_element = true ∧
    contains (Body req1) device_id_element = true ∧
    contains (Body req2) device_id_element = true.
Proof.
  intros s Hreached. subst s.
  destruct (run w flags files fuel) as [s o] eqn:Hrun.
  apply run_cases in Hrun as [(Hnot & _)|(_ & Hfin)]; [done|]. cbn [fst snd] in *.
  destruct Hfin as (resp & resp1 & initResp & n & c & Hget & Hdo & Hinit & Hn & Hnone & Hc
                    & Hposts & _).
  exists resp1, initResp, n, c, (init_request w (Request_URL resp)),
    (final_request w (Request_URL resp) (Opaque_Value (Opaque_ initResp)) (Value c)).
  split_and!; try done.
Qed.

Lemma auth_reply_body_witness :
  reached_finalization (run spec_world spec_flags ∅ 5).1 ∧
  ∃ req1 req2,
    posts (trace (run spec_world spec_flags ∅ 5).1) = [req1; req2] ∧
    Body req2 = auth_reply_document "abc123" "tok456".
Proof.
  assert (H : reached_finalization (run spec_world spec_flags ∅ 5).1).
  { apply (bool_decide_unpack _). vm_compute. reflexivity. }
  split; [exact H|].
  destruct (auth_reply_body spec_world spec_flags ∅ 5 H)
    as (resp1 & initResp & n & c & req1 & req2 & Hposts & _ & _ & _ & _ & Hbody & _).
  exists req1, req2. split; [exact Hposts|].
  vm_compute in Hposts. injection Hposts as <- <-. vm_compute. reflexivity.
Defined.



(** C7: every request sent in a run, in either stage, is a POST whose
    header has exactly seven fields: User-Agent, Accept, Accept-Encoding,
    X-Transcend-Version, X-Aggregate-Auth, X-Support-HTTP-Auth and
    Content-Type, with the values of the map literal, the content type being
    application/x-www-form-urlencoded although the body is one of the two XML
    documents.  The order in which the map is ranged over does not matter. *)
Theorem every_post_carries_the_headers w flags files fuel req :
  req ∈ posts (trace (run w flags files fuel).1) →
  Method req = "POST" ∧
  Header_ req = sent_header ∧
  size (Header_ req) = 7 ∧
  Header_Get (Header_ req) "User-Agent" = "AnyConnect Linux_64 4.7.00136" ∧
  Header_Get (Header_ req) "Accept" = "*/*" ∧
  Header_Get (Header_ req) "Accept-Encoding" = "identity" ∧
  Header_Get (Header_ req) "X-Transcend-Version" = "1" ∧
  Header_Get (Header_ req) "X-Aggregate-Auth" = "1" ∧
  Header_Get (Header_ req) "X-Support-HTTP-Auth" = "true" ∧
  Header_Get (Header_ req) "Content-Type" = "application/x-www-form-urlencoded" ∧
  ((∃ u, Body req = Sprintf init_format [u]) ∨
   (∃ opaque token, Body req = auth_reply_document opaque token)).
Proof.
  intros Hin.
  assert (Hshape : ∃ p u, req = build_request (range_headers w p) p u ∧
            ((∃ u', p = Sprintf init_format [u']) ∨
             (∃ opaque token, p = auth_reply_document opaque token))).
  { destruct (run w flags files fuel) as [s o] eqn:Hrun.
    apply run_cases in Hrun as [(_ & _ & _ & _ & Hposts & _)|(_ & Hfin)]; cbn [fst] in Hin.
    - destruct Hposts as [Hposts|(resp & _ & Hposts)]; rewrite Hposts in Hin.
      + by apply elem_of_nil in Hin.
      + apply list_elem_of_singleton in Hin as ->.
        eexists _, _. split; [reflexivity|]. left. by eexists.
    - destruct Hfin as (resp & resp1 & initResp & n & c & _ & _ & _ & _ & _ & _ & Hposts & _).
      rewrite Hposts in Hin.
      apply elem_of_cons in Hin as [->|Hin].
      + eexists _, _. split; [reflexivity|]. left. by eexists.
      + apply list_elem_of_singleton in Hin as ->.
        eexists _, _. split; [reflexivity|]. right. by eexists _, _. }
  destruct Hshape as (p & u & -> & Hbody).
  assert (Hh : Header_ (build_request (range_headers w p) p u) = sent_header)
    by apply build_request_header, range_headers_perm.
  split; [done|]. split; [done|]. rewrite Hh.
  split_and!; try (vm_compute; reflexivity). exact Hbody.
Qed.

Lemma every_post_carries_the_headers_witness :
  ∃ req, req ∈ posts (trace (run spec_world spec_flags ∅ 5).1) ∧
         Header_Get (Header_ req) "Content-Type" = "application/x-www-form-urlencoded" ∧
         size (Header_ req) = 7.
Proof.
  assert (Hin : init_request spec_world "https://vpn2.example.com"
                ∈ posts (trace (run spec_world spec_flags ∅ 5).1)).
  { vm_compute. left. }
  eexists. split; [exact Hin|].
  split; apply (every_post_carries_the_headers spec_world spec_flags ∅ 5 _ Hin).
Defined.

(** C10: the status code of a response and the error of reading its body
    play no part.  Whatever they are, and whatever the payload and the
    server, the gateway client returns the bytes that were read and logs at
    info and debug level only; the initialization stage and the finalization
    stage hand these bytes to the XML decoder and go on as the decoder says;
    and the response to the GET only gives its final URL. *)
Theorem responses_are_not_checked w url s resp resp1 :
  let u := Request_URL resp in
  let body := ReadAll_data resp1 in
  http_Get w url = inl resp →
  http_NewRequest w "POST" u = None →
  client_Do w (init_request w u) = inl resp1 →
  (∀ xmlPayload srv s0 r,
     http_NewRequest w "POST" srv = None →
     client_Do w (build_request (range_headers w xmlPayload) xmlPayload srv) = inl r →
     makePostReq w xmlPayload srv s0 =
     (add_trace s0
        [EvDo (build_request (range_headers w xmlPayload) xmlPayload srv);
         record (log s0) LevelInfo "successfullly received response from server"
           [("url", Request_URL r)];
         record (log s0) LevelDebug "received response"
           [("body", ReadAll_data r); ("url", Request_URL r)]],
      Ok (ReadAll_data r))) ∧
  (initializationStage w url s).2 =
    match xml_Unmarshal_init w body with
    | inl result => Ok (result, u)
    | inr _ => Stop (Exit 1)
    end ∧
  gets (trace (initializationStage w url s).1) = gets (trace s) ++ [url] ∧
  posts (trace (initializationStage w url s).1) = posts (trace s) ++ [init_request w u] ∧
  unmarshals (trace (initializationStage w url s).1) = unmarshals (trace s) ++ [body] ∧
  (∀ token configHash s1 resp2,
     client_Do w (final_request w u configHash token) = inl resp2 →
     (finalizationStage w u token configHash s1).2 =
       match xml_Unmarshal_final w (ReadAll_data resp2) with
       | inl result => Ok result
       | inr _ => Stop (Exit 1)
       end ∧
     posts (trace (finalizationStage w u token configHash s1).1) =
       posts (trace s1) ++ [final_request w u configHash token] ∧
     unmarshals (trace (finalizationStage w u token configHash s1).1) =
       unmarshals (trace s1) ++ [ReadAll_data resp2]).
Proof.
  intros u body Hget Hnew Hdo. split.
  { intros p srv s0 r Hnew' Hdo'. rewrite makePostReq_run, Hnew'. cbv zeta.
    by rewrite Hdo'. }
  assert (Hinit :
    (initializationStage w url s).2 =
      match xml_Unmarshal_init w body with
      | inl result => Ok (result, u)
      | inr _ => Stop (Exit 1)
      end ∧
    gets (trace (initializationStage w url s).1) = gets (trace s) ++ [url] ∧
    posts (trace (initializationStage w url s).1) = posts (trace s) ++ [init_request w u] ∧
    unmarshals (trace (initializationStage w url s).1) = unmarshals (trace s) ++ [body]).
  { unfold initializationStage. run_main. rewrite Hget. run_main.
    fold u. rewrite Hnew. run_main. fold (init_request w u). rewrite Hdo. run_main.
    fold body. unfold gets, posts, unmarshals.
    destruct (xml_Unmarshal_init w body) as [result|e]; run_main;
      (split; [done|]); cbn [trace add_trace with_log];
      split_and!; project_one; by rewrite ?app_nil_r. }
  destruct Hinit as (Hres & Hgets & Hposts & Hunm). split_and!; [done..|].
  intros token configHash s1 resp2 Hdo2.
  unfold finalizationStage. run_main. rewrite Hnew. run_main.
  fold (final_request w u configHash token). rewrite Hdo2. run_main.
  unfold posts, unmarshals.
  destruct (xml_Unmarshal_final w (ReadAll_data resp2)) as [result|e]; run_main;
    (split; [done|]); cbn [trace add_trace with_log];
    split_and!; project_one; by rewrite ?app_nil_r.
Qed.

Lemma responses_are_not_checked_witness :
  ∃ resp resp1 resp2,
    StatusCode resp = 500%Z ∧ StatusCode resp1 = 500%Z ∧ StatusCode resp2 = 500%Z ∧
    ReadAll_err resp1 = Some "unexpected EOF" ∧
    ReadAll_err resp2 = Some "unexpected EOF" ∧
    (initializationStage broken_world "https://vpn.example.com" (boot ∅)).2 =
      match xml_Unmarshal_init broken_world (ReadAll_data resp1) with
      | inl result => Ok (result, Request_URL resp)
      | inr _ => Stop (Exit 1)
      end ∧
    (finalizationStage broken_world (Request_URL resp) "tok456" "abc123" (boot ∅)).2 =
      Ok {| Cookie := "sesscookie"; Fingerprint := "fp789" |}.
Proof.
  exists (ok_response "https://vpn2.example.com" "<html/>" 500 (Some "unexpected EOF")),
    (ok_response "https://vpn2.example.com" "INIT" 500 (Some "unexpected EOF")),
    (ok_response "https://vpn2.example.com" "FINAL" 500 (Some "unexpected EOF")).
  destruct (responses_are_not_checked broken_world "https://vpn.example.com" (boot ∅)
              (ok_response "https://vpn2.example.com" "<html/>" 500 (Some "unexpected EOF"))
              (ok_response "https://vpn2.example.com" "INIT" 500 (Some "unexpected EOF")))
    as (_ & Hinit & _ & _ & _ & Hfinal); [reflexivity..|].
  split_and!; [reflexivity.. | exact Hinit |].
  destruct (Hfinal "tok456" "abc123" (boot ∅)
              (ok_response "https://vpn2.example.com" "FINAL" 500 (Some "unexpected EOF")))
    as (Hres & _); [reflexivity|].
  exact Hres.
Defined.

(** The whole run goes through on such answers. *)
Example broken_world_run :
  (run broken_world spec_flags ∅ 5).2 = Exit 0 ∧
  error_logs (trace (run broken_world spec_flags ∅ 5).1) = [].
Proof. vm_compute. done. Qed.

(** The end-to-end scenario of the specification. *)
Example spec_world_run :
  (run spec_world spec_flags ∅ 5).2 = Exit 0 ∧
  fs (run spec_world spec_flags ∅ 5).1 !! "/tmp/oc" =
    Some {| mode := perm_0600;
            data := credential_lines "sesscookie" "fp789" "https://vpn2.example.com" |} ∧
  sleeps (trace (run spec_world spec_flags ∅ 5).1) = [(10 * Millisecond)%Z] ∧
  closes (trace (run spec_world spec_flags ∅ 5).1) = [()].
Proof. vm_compute. done. Qed.

(** C1: the errors checked in [main] are logged and nothing else.  When the
    first read of the cookies fails, the wait goes on, and the run ends with
    the file written and status 0.  When the page cannot be created, the
    initialization stage still runs, GET and POST, before the nil page stops
    the process. *)
Theorem errors_in_main_are_not_fatal :
  (let r := run flaky_world spec_flags ∅ 5 in
   error_logs (trace r.1) = ["could not get cookies from browser context"] ∧
   r.2 = Exit 0 ∧
   length (posts (trace r.1)) = 2 ∧
   fs r.1 !! "/tmp/oc" =
     Some {| mode := perm_0600;
             data := credential_lines "sesscookie" "fp789" "https://vpn2.example.com" |}) ∧
  (let r := run no_page_world spec_flags ∅ 5 in
   error_logs (trace r.1) = ["could not create page"] ∧
   gets (trace r.1) = ["https://vpn.example.com"] ∧
   length (posts (trace r.1)) = 1 ∧
   r.2 = Panic).
Proof. vm_compute. done. Qed.

(** * Further properties *)

(** ** The logger *)

Ltac level_cases lvl :=
  destruct (String.eqb_spec lvl "debug") as [->|?];
  [|destruct (String.eqb_spec lvl "info") as [->|?];
    [|destruct (String.eqb_spec lvl "warn") as [->|?];
      [|destruct (String.eqb_spec lvl "error") as [->|?];
        [|destruct (String.eqb_spec lvl "none") as [->|?]]]]].

(** X1: the logger of [setupLogger] prints a debug record exactly for the
    level flag [debug], an info record for every level flag but [warn],
    [error] and [none] (so also for an unknown flag, which counts as
    [info]), and an error record for every level flag but [none]; it writes
    JSON exactly for the format flag [json], every other format being
    text. *)
Theorem setupLogger_thresholds format lvl (r : LogRecord) :
  (level r = LevelDebug →
   (printed (setupLogger format lvl) r = true ↔ lvl = "debug")) ∧
  (level r = LevelInfo →
   (printed (setupLogger format lvl) r = true ↔
    lvl ≠ "warn" ∧ lvl ≠ "error" ∧ lvl ≠ "none")) ∧
  (level r = LevelError →
   (printed (setupLogger format lvl) r = true ↔ lvl ≠ "none")) ∧
  (handler (setupLogger format lvl) = JSONHandler ↔ format = "json").
Proof.
  split; [|split; [|split]].
  - intros Hr. unfold printed, setupLogger. cbn [min_level]. rewrite Hr.
    level_cases lvl; cbn; naive_solver.
  - intros Hr. unfold printed, setupLogger. cbn [min_level]. rewrite Hr.
    level_cases lvl; cbn; naive_solver.
  - intros Hr. unfold printed, setupLogger. cbn [min_level]. rewrite Hr.
    level_cases lvl; cbn; naive_solver.
  - unfold setupLogger. cbn [handler].
    destruct (String.eqb_spec format "json"); [done|].
    by destruct (format =? "text").
Qed.

Lemma setupLogger_thresholds_witness :
  printed (setupLogger "yaml" "verbose")
    {| level := LevelInfo; msg := "Logger initialized"; attrs := [] |} = true ∧
  printed (setupLogger "json" "none")
    {| level := LevelError; msg := "Failed to get url"; attrs := [] |} = false.
Proof.
  split.
  - destruct (setupLogger_thresholds "yaml" "verbose"
                {| level := LevelInfo; msg := "Logger initialized"; attrs := [] |})
      as (_ & Hinfo & _).
    apply Hinfo; [reflexivity|]. split_and!; discriminate.
  - destruct (setupLogger_thresholds "json" "none"
                {| level := LevelError; msg := "Failed to get url"; attrs := [] |})
      as (_ & _ & Herror & _).
    destruct (printed _ _); [|reflexivity].
    destruct (proj1 (Herror eq_refl) eq_refl). reflexivity.
Defined.

(** ** The documents *)

Lemma string_app_assoc (a b c : string) : (a +:+ b) +:+ c = a +:+ (b +:+ c).
Proof.
  induction a as [|x a IH]; [done|].
  change (String x ((a +:+ b) +:+ c) = String x (a +:+ (b +:+ c))). by rewrite IH.
Qed.

(** X2: the opaque value and the token are pasted into the auth-reply
    document as they are, without escaping: the body of the request is the
    document with the two values in place, and two different pairs of
    values give the same body when the text that separates the two places
    moves from one value into the other. *)
Theorem auth_reply_body_is_ambiguous w u x y z :
  Body (final_request w u (x +:+ opaque_to_token +:+ y) z) =
  Body (final_request w u x (y +:+ opaque_to_token +:+ z)) ∧
  Body (final_request w u x z) = auth_reply_document x z.
Proof.
  split; [|reflexivity].
  change (auth_reply_document (x +:+ opaque_to_token +:+ y) z =
          auth_reply_document x (y +:+ opaque_to_token +:+ z)).
  unfold auth_reply_document.
  repeat (apply (f_equal2 String.append); [reflexivity|]).
  rewrite !string_app_assoc.
  repeat (apply (f_equal2 String.append); [reflexivity|]).
  reflexivity.
Qed.

Lemma count_nl_app a b : count_nl (a +:+ b) = count_nl a + count_nl b.
Proof.
  induction a as [|x a IH]; [done|].
  change (count_nl (String x (a +:+ b)) = count_nl (String x a) + count_nl b).
  cbn [count_nl]. rewrite IH. lia.
Qed.

(** X3: the content that the Config Writer hands to [os.WriteFile] has the
    three newlines of its lines plus those of the cookie, the fingerprint
    and the server: it has three lines exactly when none of the three
    values holds a newline. *)
Theorem credential_file_line_count w cookie fingerprint srv file s :
  ∃ content r,
    trace (writeOCConfig w cookie fingerprint srv file s).1 =
      trace s ++ [EvWriteFile file content perm_0600; EvLog r] ∧
    count_nl content = 3 + count_nl cookie + count_nl fingerprint + count_nl srv ∧
    (count_nl content = 3 ↔
     count_nl cookie = 0 ∧ count_nl fingerprint = 0 ∧ count_nl srv = 0).
Proof.
  assert (Hcount : count_nl (Sprintf config_format [cookie; fingerprint; srv]) =
                   3 + count_nl cookie + count_nl fingerprint + count_nl srv).
  { change (Sprintf config_format [cookie; fingerprint; srv])
      with (credential_lines cookie fingerprint srv).
    unfold credential_lines. rewrite !count_nl_app.
    change (count_nl nl) with 1. change (count_nl "cookie=") with 0.
    change (count_nl "servercert=") with 0. change (count_nl "# host=") with 0. lia. }
  rewrite writeOCConfig_run. cbv zeta.
  destruct (os_WriteFile_outcome w file _); cbn [fst trace add_trace];
    eexists _, _; (split; [by rewrite <- app_assoc|]); (split; [exact Hcount|]);
    rewrite Hcount; lia.
Qed.

(** ** Invariants of actions *)

Lemma preserves_bind {A B} (I : State → Prop) (m : M A) (k : A → M B) :
  preserves I m → (∀ a, preserves I (k a)) → preserves I (m ≫= k).
Proof.
  intros Hm Hk s Hs. rewrite bind_run. specialize (Hm s Hs).
  destruct (m s) as [s' [a|o]]; [|exact Hm]. by apply Hk.
Qed.

Lemma preserves_ret {A} (I : State → Prop) (a : A) : preserves I (mret a).
Proof. by intros s Hs. Qed.

Lemma preserves_stop {A} (I : State → Prop) o : preserves I (stop o : M A).
Proof. by intros s Hs. Qed.

Lemma preserves_deref (I : State → Prop) b : preserves I (deref b).
Proof. destruct b; by intros s Hs. Qed.


Lemma run_state w flags files fuel :
  (run w flags files fuel).1 = (main_after_Parse w flags fuel (boot files)).1.
Proof. unfold run. by destruct (main_after_Parse w flags fuel (boot files)) as [s [a|o]]. Qed.

(** Take a program apart along its binds and case distinctions, leaving the
    calls to [prim]. *)
Ltac peel prim :=
  repeat first
    [ prim
    | apply preserves_ret
    | apply preserves_stop
    | apply preserves_deref
    | apply preserves_bind; [|intros ?]
    | match goal with
      | |- preserves _ (let '(_, _) := ?x in _) => destruct x
      | |- preserves _ (match ?x with _ => _ end) => destruct x
      end ].

(** ** The files a run touches *)

Section untouched_before_write.
Context (w : World) (files : gmap string File).

Let I := untouched_before_write files.













End untouched_before_write.


(** Forget how the state [S] was reached, but for its logger and its poll
    counter. *)
Ltac forget S :=
  let s1 := fresh "s" in
  let Heq := fresh "Heq" in
  remember S as s1 eqn:Heq;
  let Hlog := fresh "Hlog" in
  let Hpolls := fresh "Hpolls" in
  pose proof (f_equal log Heq) as Hlog;
  pose proof (f_equal polls Heq) as Hpolls;
  cbn [log fs polls trace after_polls add_trace with_log boot] in Hlog, Hpolls;
  repeat match goal with
    | H : log ?s = _ |- _ => tryif constr_eq H Hlog then fail else rewrite H in Hlog
    | H : polls ?s = _ |- _ => tryif constr_eq H Hpolls then fail else rewrite H in Hpolls
    end;
  clear Heq.



(** ** What is logged at which level *)

Lemma discreet_call_sound l lvl m args :
  plain_logger l → discreet_call lvl m args.*1 = true →
  discreet {| level := lvl; msg := m; attrs := with_attrs l ++ args |}.
Proof.
  intros Hl Hcall. unfold discreet_call in Hcall.
  apply andb_prop in Hcall as [Hsecret Hbody].
  assert (Hkeys : ∀ k, k ≠ "ts" → k ≠ "stage" →
            k ∈ keys {| level := lvl; msg := m; attrs := with_attrs l ++ args |} →
            k ∈ args.*1).
  { intros k Hts Hstage. unfold keys. cbn [attrs]. rewrite fmap_app, elem_of_app.
    intros [Hk|Hk]; [|done]. by destruct (Hl k Hk). }
  split; cbn [level msg].
  - intros Hlvl. apply orb_prop in Hsecret as [Heq|Hno].
    { by apply Z.eqb_eq in Heq. }
    apply negb_true_iff, orb_false_elim in Hno as [Hc Hf].
    apply bool_decide_eq_false in Hc, Hf.
    split; intros Hin; [apply Hc | apply Hf]; by apply Hkeys.
  - intros Hin. apply orb_prop in Hbody as [Hlevel|Hno].
    { apply orb_prop in Hlevel as [Heq|Heq]; [apply Z.eqb_eq in Heq; auto|].
      apply andb_prop in Heq as [Heq Hm]. apply Z.eqb_eq in Heq.
      apply String.eqb_eq in Hm. auto. }
    apply negb_true_iff, bool_decide_eq_false in Hno. destruct Hno. by apply Hkeys.
Qed.

Section discreet.
Context (w : World) (lvl0 : Level).

Let I := discreet_so_far lvl0.

Lemma discreet_emit e : log_of e = None → preserves I (emit e).
Proof.
  intros He s (Hl & Hm & Hrecs). split_and!; [done..|].
  cbn [fst emit trace add_trace]. unfold logs. rewrite pick_app, pick_cons, He.
  by rewrite app_nil_r.
Qed.

Lemma discreet_log_at lvl m args :
  discreet_call lvl m args.*1 = true → preserves I (log_at lvl m args).
Proof.
  intros Hcall s (Hl & Hm & Hrecs). rewrite log_at_run. split_and!; [done..|].
  cbn [fst trace add_trace]. unfold logs. rewrite pick_app. apply Forall_app.
  split; [done|]. apply Forall_singleton. by apply discreet_call_sound.
Qed.

Lemma discreet_log_if_err err m : preserves I (log_if_err err m).
Proof.
  destruct err; [|apply preserves_ret]. apply discreet_log_at.
  unfold discreet_call. apply andb_true_intro. split; [reflexivity|].
  apply orb_true_r.
Qed.

Lemma discreet_log_With_stage name : preserves I (log_With_stage name).
Proof.
  intros s (Hl & Hm & Hrecs). split_and!; [|done..].
  intros k. cbn [fst log_With_stage log with_attrs Logger_With].
  rewrite log_With_stage_run. cbn [fst log with_log with_attrs Logger_With].
  rewrite fmap_app, elem_of_app. intros [Hk|Hk]; [by apply Hl|].
  apply list_elem_of_singleton in Hk. by right.
Qed.

Lemma discreet_Cookies : preserves I (context_Cookies_call w).
Proof.
  intros s (Hl & Hm & Hrecs). split_and!; [done..|].
  cbn [fst context_Cookies_call trace]. unfold logs. rewrite pick_app, pick_cons.
  by rewrite app_nil_r.
Qed.

Ltac discreet_prim :=
  first [ apply discreet_emit; reflexivity
        | apply discreet_log_at; reflexivity
        | apply discreet_log_if_err
        | apply discreet_log_With_stage
        | apply discreet_Cookies ].

Lemma discreet_login_wait name fuel : preserves I (login_wait w name fuel).
Proof.
  induction fuel as [|fuel IH]; cbn [login_wait]; [apply preserves_stop|].
  apply preserves_bind; [apply discreet_Cookies|]. intros [jar err].
  apply preserves_bind; [apply discreet_log_if_err|]. intros _.
  apply preserves_bind.
  { clear IH. induction jar as [|c jar IHjar]; cbn [range_cookies];
      [apply preserves_ret|].
    destruct (Name c =? name); [|exact IHjar]. peel discreet_prim. }
  intros [c|]; peel discreet_prim. exact IH.
Qed.

Lemma discreet_makePostReq p u : preserves I (makePostReq w p u).
Proof. unfold makePostReq, os_Exit. peel discreet_prim. Qed.

Lemma discreet_initializationStage url : preserves I (initializationStage w url).
Proof.
  unfold initializationStage, os_Exit.
  peel ltac:(first [discreet_prim | apply discreet_makePostReq]).
Qed.

Lemma discreet_finalizationStage u t h : preserves I (finalizationStage w u t h).
Proof.
  unfold finalizationStage, os_Exit.
  peel ltac:(first [discreet_prim | apply discreet_makePostReq]).
Qed.

Lemma discreet_writeOCConfig c f u file : preserves I (writeOCConfig w c f u file).
Proof.
  intros s (Hl & Hm & Hrecs). rewrite writeOCConfig_run. cbv zeta.
  destruct (os_WriteFile_outcome w file _); cbn [fst];
    (split_and!; [done..|]); cbn [trace add_trace]; unfold logs;
    rewrite !pick_app, !pick_cons, !pick_nil; cbn [log_of option_list app];
    rewrite ?app_nil_r; (apply Forall_app; split; [done|]);
    apply Forall_singleton; by apply discreet_call_sound.
Qed.
End discreet.

Lemma discreet_run w flags files fuel :
  discreet_so_far (min_level (setupLogger (logFormat flags) (logLevel flags)))
    (run w flags files fuel).1.
Proof.
  rewrite run_state. unfold main_after_Parse. rewrite bind_run, set_log_run.
  match goal with
  | |- discreet_so_far ?l (?m ?s).1 =>
      cut (preserves (discreet_so_far l) m); [intros Hp; apply Hp|]
  end.
  - split_and!; [|done|by apply Forall_nil].
    intros k. cbn [log with_log]. rewrite with_attrs_setupLogger.
    intros Hk%list_elem_of_singleton. by left.
  - peel ltac:(first [ apply discreet_emit; reflexivity
                     | apply discreet_log_at; reflexivity
                     | apply discreet_log_if_err
                     | apply discreet_initializationStage
                     | apply discreet_login_wait
                     | apply discreet_finalizationStage
                     | apply discreet_writeOCConfig ]).
Qed.

Lemma min_level_above_debug format lvl :
  lvl ≠ "debug" → (LevelDebug < min_level (setupLogger format lvl))%Z.
Proof.
  intros Hne. unfold setupLogger. cbn [min_level].
  level_cases lvl; cbn; try done; unfold LevelDebug, LevelInfo, LevelWarn, LevelError; lia.
Qed.

Lemma min_level_up_to_error format lvl :
  lvl ≠ "none" → (min_level (setupLogger format lvl) ≤ LevelError)%Z.
Proof.
  intros Hne. unfold setupLogger. cbn [min_level].
  level_cases lvl; cbn; try done; unfold LevelDebug, LevelInfo, LevelWarn, LevelError; lia.
Qed.

(** The run in which everything succeeds up to the final response, which
    does not decode. *)
Lemma failed_decoding_cases w flags files fuel resp resp1 initResp n c resp2 e s o :
  (playwright_Run w).1 = true → (Firefox_Launch w).1 = true →
  (browser_NewContext w).1 = true → (context_NewPage w).1 = true →
  http_Get w (server flags) = inl resp →
  http_NewRequest w "POST" (Request_URL resp) = None →
  client_Do w (init_request w (Request_URL resp)) = inl resp1 →
  xml_Unmarshal_init w (ReadAll_data resp1) = inl initResp →
  (∀ k, k < n →
     first_match (TokenCookieName initResp) (context_Cookies w k).1 = None) →
  first_match (TokenCookieName initResp) (context_Cookies w n).1 = Some c →
  n < fuel →
  client_Do w (final_request w (Request_URL resp)
                 (Opaque_Value (Opaque_ initResp)) (Value c)) = inl resp2 →
  xml_Unmarshal_final w (ReadAll_data resp2) = inr e →
  run w flags files fuel = (s, o) →
  o = Exit 1 ∧
  min_level (log s) = min_level (setupLogger (logFormat flags) (logLevel flags)) ∧
  {| level := LevelError; msg := decoding_failed;
     attrs := [("ts", "utc"); ("stage", "initialization"); ("stage", "finalization");
               ("err", e); ("body", ReadAll_data resp2)] |} ∈ logs (trace s).
Proof.
  intros Hpw Hbrowser Hcontext Hpage Hget Hnew Hdo Hinit Hnone Hc Hn Hdo2 Hfr.
  unfold run, main_after_Parse. run_main.
  destruct (playwright_Run w) as [pw err1]. cbn [fst] in Hpw. subst pw. run_main.
  destruct (Firefox_Launch w) as [browser err2]. cbn [fst] in Hbrowser. subst browser.
  run_main.
  destruct (browser_NewContext w) as [context err3]. cbn [fst] in Hcontext. subst context.
  run_main.
  destruct (context_NewPage w) as [page err4]. cbn [fst] in Hpage. subst page. run_main.
  match goal with |- context [initializationStage w _ ?S] => forget S end.
  unfold initializationStage. run_main. rewrite Hget. run_main. rewrite Hnew. run_main.
  fold (init_request w (Request_URL resp)). rewrite Hdo. run_main.
  rewrite Hinit. run_main.
  match goal with |- context [login_wait w _ _ ?S] => forget S end.
  rewrite (login_wait_found _ _ n _ _ c) by (by rewrite ?Hpolls0).
  run_main.
  match goal with |- context [finalizationStage w _ _ _ ?S] => forget S end.
  unfold finalizationStage. run_main. rewrite Hnew. run_main.
  fold (final_request w (Request_URL resp) (Opaque_Value (Opaque_ initResp)) (Value c)).
  rewrite Hdo2. run_main. rewrite Hfr. run_main.
  intros [= <- <-]. cbn [log trace add_trace with_log min_level Logger_With].
  split; [done|]. split; [done|].
  unfold logs. rewrite pick_app. apply elem_of_app. right.
  apply list_elem_of_lookup. exists 3. reflexivity.
Qed.

(** X5: in every run, the attributes [cookie] and [fingerprint], under
    which the decoded session cookie and fingerprint are logged, occur in
    debug records only, so that they are printed only when the level flag
    is [debug]; the attribute [body] occurs in debug records and in the
    error record of a body that does not decode.  That record is the
    exception to the discretion of the other levels: when everything
    succeeds up to the final response and this response does not decode,
    its whole body, in which the gateway sends the session cookie, is
    logged at error level, and printed unless the level flag is [none]. *)
Theorem secrets_in_the_log w flags files fuel :
  let s := (run w flags files fuel).1 in
  (∀ r, r ∈ logs (trace s) →
     (level r ≠ LevelDebug → ("cookie" ∉ keys r) ∧ ("fingerprint" ∉ keys r)) ∧
     ("body" ∈ keys r →
      level r = LevelDebug ∨ (level r = LevelError ∧ msg r = decoding_failed)) ∧
     (logLevel flags ≠ "debug" → printed (log s) r = true →
      ("cookie" ∉ keys r) ∧ ("fingerprint" ∉ keys r))) ∧
  (∀ resp resp1 initResp n c resp2 e,
     (playwright_Run w).1 = true → (Firefox_Launch w).1 = true →
     (browser_NewContext w).1 = true → (context_NewPage w).1 = true →
     http_Get w (server flags) = inl resp →
     http_NewRequest w "POST" (Request_URL resp) = None →
     client_Do w (init_request w (Request_URL resp)) = inl resp1 →
     xml_Unmarshal_init w (ReadAll_data resp1) = inl initResp →
     (∀ k, k < n →
        first_match (TokenCookieName initResp) (context_Cookies w k).1 = None) →
     first_match (TokenCookieName initResp) (context_Cookies w n).1 = Some c →
     n < fuel →
     client_Do w (final_request w (Request_URL resp)
                    (Opaque_Value (Opaque_ initResp)) (Value c)) = inl resp2 →
     xml_Unmarshal_final w (ReadAll_data resp2) = inr e →
     ∃ r, r ∈ logs (trace s) ∧ level r = LevelError ∧
          ("body", ReadAll_data resp2) ∈ attrs r ∧
          (logLevel flags ≠ "none" → printed (log s) r = true)).
Proof.
  intros s. split.
  - intros r Hin. subst s.
    destruct (discreet_run w flags files fuel) as (_ & Hmin & Hrecs).
    rewrite Forall_forall in Hrecs. destruct (Hrecs r Hin) as [Hsecret Hbody].
    split_and!; [done..|]. intros Hlvl Hprinted. apply Hsecret.
    unfold printed in Hprinted. rewrite Hmin in Hprinted. apply Z.leb_le in Hprinted.
    pose proof (min_level_above_debug (logFormat flags) _ Hlvl). lia.
  - intros resp resp1 initResp n c resp2 e Hpw Hbrowser Hcontext Hpage Hget Hnew Hdo
      Hinit Hnone Hc Hn Hdo2 Hfr. subst s.
    destruct (run w flags files fuel) as [s o] eqn:Hrun. cbn [fst].
    destruct (failed_decoding_cases w flags files fuel resp resp1 initResp n c resp2 e
                s o) as (_ & Hmin & Hin); try done.
    eexists. split; [exact Hin|]. cbn [level attrs]. split; [done|]. split.
    { apply list_elem_of_lookup. exists 4. reflexivity. }
    intros Hlvl. unfold printed. rewrite Hmin. cbn [level]. apply Z.leb_le.
    by apply min_level_up_to_error.
Qed.

Lemma secrets_in_the_log_witness :
  ∃ r, r ∈ logs (trace (run garbled_world spec_flags ∅ 5).1) ∧
       level r = LevelError ∧
       ("body", "<session-token>sesscookie</session-token") ∈ attrs r ∧
       printed (log (run garbled_world spec_flags ∅ 5).1) r = true.
Proof.
  destruct (secrets_in_the_log garbled_world spec_flags ∅ 5) as [_ Hleak].
  destruct (Hleak
              (ok_response "https://vpn2.example.com" "<html/>" 200 None)
              (ok_response "https://vpn2.example.com" "INIT" 200 None)
              {| LoginURL := "https://idp.example.com/login";
                 LoginFinalURL := EmptyString;
                 TokenCookieName := "ssotoken";
                 Opaque_ := {| Opaque_Value := "abc123" |} |}
              1
              {| Name := "ssotoken"; Value := "tok456" |}
              (ok_response "https://vpn2.example.com"
                 "<session-token>sesscookie</session-token" 200 None)
              "XML syntax error: unexpected EOF")
    as (r & Hin & Hlevel & Hbody & Hprinted).
  all: try reflexivity.
  - intros k Hk. destruct k; [reflexivity | lia].
  - lia.
  - exists r. split_and!; [done..|]. apply Hprinted. discriminate.
Defined.

(** ** How a run can stop *)





















(** ** More on whole runs *)








(** ** More on the login wait *)

(** X9: the errors of [context.Cookies()] do not steer the wait: in two
    worlds whose polls return the same jars, whatever the errors, the wait
    ends the same way after as many polls and sleeps, and closes the
    browser as often. *)
Theorem login_wait_ignores_read_errors w1 w2 name fuel s :
  (∀ k, (context_Cookies w1 k).1 = (context_Cookies w2 k).1) →
  (login_wait w1 name fuel s).2 = (login_wait w2 name fuel s).2 ∧
  polls (login_wait w1 name fuel s).1 = polls (login_wait w2 name fuel s).1 ∧
  sleeps (trace (login_wait w1 name fuel s).1) =
    sleeps (trace (login_wait w2 name fuel s).1) ∧
  closes (trace (login_wait w1 name fuel s).1) =
    closes (trace (login_wait w2 name fuel s).1).
Proof.
  intros Hjars.
  destruct (first_poll w1 name (polls s) fuel) as [Hnone|(n & c & Hn & Hnone & Hc)].
  - rewrite (login_wait_spinning w1) by done.
    rewrite (login_wait_spinning w2) by (intros k Hk; rewrite <- Hjars; by apply Hnone).
    cbn [fst snd polls trace after_polls]. unfold sleeps, closes.
    rewrite !pick_app, !pick_sleep_idle_rounds, !quiet_idle_rounds by done. done.
  - rewrite (login_wait_found w1 _ n _ _ c) by done.
    assert (Hnone2 : ∀ k, k < n →
              first_match name (context_Cookies w2 (polls s + k)).1 = None)
      by (intros k Hk; rewrite <- Hjars; by apply Hnone).
    assert (Hc2 : first_match name (context_Cookies w2 (polls s + n)).1 = Some c)
      by (by rewrite <- Hjars).
    rewrite (login_wait_found w2 _ n _ _ c) by done.
    cbn [fst snd polls trace after_polls]. unfold sleeps, closes, poll_events.
    rewrite !pick_app, !pick_cons, !pick_sleep_idle_rounds, !quiet_idle_rounds,
      !pick_err_log by done.
    done.
Qed.

Lemma login_wait_ignores_read_errors_witness :
  (login_wait flaky_world "ssotoken" 5 (boot ∅)).2 =
    Ok {| Name := "ssotoken"; Value := "tok456" |} ∧
  (login_wait flaky_world "ssotoken" 5 (boot ∅)).2 =
    (login_wait calm_world "ssotoken" 5 (boot ∅)).2.
Proof.
  split; [vm_compute; reflexivity|].
  apply (login_wait_ignores_read_errors flaky_world calm_world "ssotoken" 5 (boot ∅)).
  intros k. reflexivity.
Defined.

(** ** More on the gateway client *)

(** X10: [makePostReq] leaves the files, the logger and the poll counter
    alone; when the request cannot be built it sends nothing, logs one
    error and exits with status 1; otherwise it sends exactly one request,
    the payload with the headers; when sending fails it logs one error and
    exits with status 1; when sending succeeds it returns the body read and
    logs no error. *)
Theorem makePostReq_failures w p u s :
  let res := makePostReq w p u s in
  let req := build_request (range_headers w p) p u in
  fs res.1 = fs s ∧ log res.1 = log s ∧ polls res.1 = polls s ∧
  (∀ e, http_NewRequest w "POST" u = Some e →
     res.2 = Stop (Exit 1) ∧ posts (trace res.1) = posts (trace s) ∧
     error_logs (trace res.1) = error_logs (trace s) ++ ["Failed to create http request"]) ∧
  (http_NewRequest w "POST" u = None →
     posts (trace res.1) = posts (trace s) ++ [req]) ∧
  (∀ e, http_NewRequest w "POST" u = None → client_Do w req = inr e →
     res.2 = Stop (Exit 1) ∧
     error_logs (trace res.1) =
       error_logs (trace s) ++ ["failed to POST request to the server"]) ∧
  (∀ resp, http_NewRequest w "POST" u = None → client_Do w req = inl resp →
     res.2 = Ok (ReadAll_data resp) ∧ error_logs (trace res.1) = error_logs (trace s)).
Proof.
  intros res req. subst res req. rewrite makePostReq_run.
  destruct (http_NewRequest w "POST" u) as [e|]; cbv zeta.
  - cbn [fst snd fs log polls trace add_trace]. unfold posts, error_logs.
    rewrite !pick_app. split_and!; try done.
    intros e' _. split_and!; [done | by rewrite app_nil_r | done].
  - destruct (client_Do w _) as [resp|e];
      cbn [fst snd fs log polls trace add_trace]; unfold posts, error_logs;
      rewrite !pick_app; split_and!; try done.
    intros resp' _ [= <-]. split; [done|]. by rewrite app_nil_r.
Qed.

Lemma makePostReq_failures_witness :
  (makePostReq spec_world "<x/>" "https://vpn2.example.com" (boot ∅)).2 = Ok "INIT" ∧
  (makePostReq (refusing spec_world (Some "invalid URL") None) "<x/>" "::" (boot ∅)).2
    = Stop (Exit 1) ∧
  (makePostReq (refusing spec_world None (Some "connection refused")) "<x/>"
     "https://vpn2.example.com" (boot ∅)).2 = Stop (Exit 1).
Proof.
  split_and!.
  - destruct (makePostReq_failures spec_world "<x/>" "https://vpn2.example.com" (boot ∅))
      as (_ & _ & _ & _ & _ & _ & Hok).
    apply (Hok (ok_response "https://vpn2.example.com" "INIT" 200 None)); reflexivity.
  - destruct (makePostReq_failures (refusing spec_world (Some "invalid URL") None)
                "<x/>" "::" (boot ∅)) as (_ & _ & _ & Hnew & _).
    apply (Hnew "invalid URL"). reflexivity.
  - destruct (makePostReq_failures (refusing spec_world None (Some "connection refused"))
                "<x/>" "https://vpn2.example.com" (boot ∅))
      as (_ & _ & _ & _ & _ & Hdo & _).
    apply (Hdo "connection refused"); reflexivity.
Defined.

(** ** Failure and success of the exchange *)





Lemma successful_run_cases w flags files fuel resp resp1 initResp n c resp2 fr s o :
  (playwright_Run w).1 = true → (Firefox_Launch w).1 = true →
  (browser_NewContext w).1 = true → (context_NewPage w).1 = true →
  http_Get w (server flags) = inl resp →
  http_NewRequest w "POST" (Request_URL resp) = None →
  client_Do w (init_request w (Request_URL resp)) = inl resp1 →
  xml_Unmarshal_init w (ReadAll_data resp1) = inl initResp →
  (∀ k, k < n →
     first_match (TokenCookieName initResp) (context_Cookies w k).1 = None) →
  first_match (TokenCookieName initResp) (context_Cookies w n).1 = Some c →
  n < fuel →
  client_Do w (final_request w (Request_URL resp)
                 (Opaque_Value (Opaque_ initResp)) (Value c)) = inl resp2 →
  xml_Unmarshal_final w (ReadAll_data resp2) = inl fr →
  os_WriteFile_outcome w (ocFile flags)
    (Sprintf config_format [Cookie fr; Fingerprint fr; Request_URL resp]) = WriteOk →
  run w flags files fuel = (s, o) →
  o = Exit 0 ∧
  fs s !! ocFile flags =
    Some {| mode := match files !! ocFile flags with
                    | Some f => mode f
                    | None => N.ldiff perm_0600 (umask w)
                    end;
            data := Sprintf config_format [Cookie fr; Fingerprint fr; Request_URL resp] |} ∧
  polls s = S n ∧
  sleeps (trace s) = replicate n (10 * Millisecond)%Z ∧
  closes (trace s) = [()] ∧
  gotos (trace s) = [LoginURL initResp].
Proof.
  intros Hpw Hbrowser Hcontext Hpage Hget Hnew Hdo Hinit Hnone Hc Hn Hdo2 Hfr Hwr.
  unfold run, main_after_Parse. run_main.
  destruct (playwright_Run w) as [pw err1]. cbn [fst] in Hpw. subst pw. run_main.
  destruct (Firefox_Launch w) as [browser err2]. cbn [fst] in Hbrowser. subst browser.
  run_main.
  destruct (browser_NewContext w) as [context err3]. cbn [fst] in Hcontext. subst context.
  run_main.
  destruct (context_NewPage w) as [page err4]. cbn [fst] in Hpage. subst page. run_main.
  match goal with |- context [initializationStage w _ ?S] => checkpoint S end.
  unfold initializationStage. run_main. rewrite Hget. run_main. rewrite Hnew. run_main.
  fold (init_request w (Request_URL resp)). rewrite Hdo. run_main.
  rewrite Hinit. run_main.
  match goal with |- context [login_wait w _ _ ?S] => checkpoint S end.
  rewrite (login_wait_found _ _ n _ _ c) by (by rewrite ?Hpolls0).
  run_main.
  match goal with |- context [finalizationStage w _ _ _ ?S] => checkpoint S end.
  unfold finalizationStage. run_main. rewrite Hnew. run_main.
  fold (final_request w (Request_URL resp) (Opaque_Value (Opaque_ initResp)) (Value c)).
  rewrite Hdo2. run_main. rewrite Hfr. run_main. cbv zeta. rewrite Hwr. run_main.
  intros [= Hs <-].
  pose proof (f_equal fs Hs) as Hfs_end. pose proof (f_equal polls Hs) as Hpolls_end.
  pose proof (f_equal trace Hs) as Htr_end.
  cbn [fs polls trace add_trace with_log after_polls] in Hfs_end, Hpolls_end, Htr_end.
  clear Hs.
  rewrite Hfs1 in Hfs_end.
  split; [done|]. split.
  { rewrite <- Hfs_end. apply written_lookup. }
  split; [by rewrite <- Hpolls_end|].
  unfold sleeps, closes, gotos. rewrite <- Htr_end. split_and!; by project_one.
Qed.

(** X12: when the four browser calls return a value, the GET, both POSTs
    and both decodings succeed, the token cookie first shows up at poll [n]
    within the bound, and the write succeeds, then the run exits with
    status 0 after n + 1 polls and n sleeps of 10 ms, having navigated once
    to the login URL and closed the browser once; the [-config] file holds
    the three credential lines, with the mode it had before, or 0600 less
    the umask when it is new. *)
Theorem successful_run w flags files fuel resp resp1 initResp n c resp2 fr :
  let s := (run w flags files fuel).1 in
  (playwright_Run w).1 = true → (Firefox_Launch w).1 = true →
  (browser_NewContext w).1 = true → (context_NewPage w).1 = true →
  http_Get w (server flags) = inl resp →
  http_NewRequest w "POST" (Request_URL resp) = None →
  client_Do w (init_request w (Request_URL resp)) = inl resp1 →
  xml_Unmarshal_init w (ReadAll_data resp1) = inl initResp →
  (∀ k, k < n →
     first_match (TokenCookieName initResp) (context_Cookies w k).1 = None) →
  first_match (TokenCookieName initResp) (context_Cookies w n).1 = Some c →
  n < fuel →
  client_Do w (final_request w (Request_URL resp)
                 (Opaque_Value (Opaque_ initResp)) (Value c)) = inl resp2 →
  xml_Unmarshal_final w (ReadAll_data resp2) = inl fr →
  os_WriteFile_outcome w (ocFile flags)
    (Sprintf config_format [Cookie fr; Fingerprint fr; Request_URL resp]) = WriteOk →
  (run w flags files fuel).2 = Exit 0 ∧
  fs s !! ocFile flags =
    Some {| mode := match files !! ocFile flags with
                    | Some f => mode f
                    | None => N.ldiff perm_0600 (umask w)
                    end;
            data := Sprintf config_format [Cookie fr; Fingerprint fr; Request_URL resp] |} ∧
  polls s = S n ∧
  sleeps (trace s) = replicate n (10 * Millisecond)%Z ∧
  closes (trace s) = [()] ∧
  gotos (trace s) = [LoginURL initResp].
Proof.
  intros s. subst s. intros.
  destruct (run w flags files fuel) as [s o] eqn:Hrun. cbn [fst snd].
  by eapply successful_run_cases.
Qed.

Lemma successful_run_witness :
  (run spec_world spec_flags ∅ 5).2 = Exit 0 ∧
  polls (run spec_world spec_flags ∅ 5).1 = 2 ∧
  sleeps (trace (run spec_world spec_flags ∅ 5).1) = [(10 * Millisecond)%Z].
Proof.
  destruct (successful_run spec_world spec_flags ∅ 5
              (ok_response "https://vpn2.example.com" "<html/>" 200 None)
              (ok_response "https://vpn2.example.com" "INIT" 200 None)
              {| LoginURL := "https://idp.example.com/login";
                 LoginFinalURL := EmptyString;
                 TokenCookieName := "ssotoken";
                 Opaque_ := {| Opaque_Value := "abc123" |} |}
              1
              {| Name := "ssotoken"; Value := "tok456" |}
              (ok_response "https://vpn2.example.com" "FINAL" 200 None)
              {| Cookie := "sesscookie"; Fingerprint := "fp789" |})
    as (Ho & _ & Hpolls & Hsleeps & _).
  all: try reflexivity.
  - intros k Hk. destruct k; [reflexivity | lia].
  - lia.
  - by split_and!.
Defined.

(** ** How a run ends *)

Lemma first_jar_spec w name k fuel :
  match first_jar w name k fuel with
  | None => ∀ i, i < fuel → first_match name (context_Cookies w (k + i)).1 = None
  | Some c =>
      ∃ n, n < fuel ∧
        (∀ i, i < n → first_match name (context_Cookies w (k + i)).1 = None) ∧
        first_match name (context_Cookies w (k + n)).1 = Some c
  end.
Proof.
  revert k. induction fuel as [|fuel IH]; intros k; cbn [first_jar]; [lia|].
  destruct (first_match name (context_Cookies w k).1) as [c|] eqn:Hk.
  - exists 0. rewrite Nat.add_0_r. split_and!; [lia | lia | done].
  - specialize (IH (S k)). destruct (first_jar w name (S k) fuel) as [c|].
    + destruct IH as (n & Hn & Hnone & Hc). exists (S n). split_and!; [lia | |].
      * intros [|i] Hi; [by rewrite Nat.add_0_r|].
        rewrite Nat.add_succ_r. apply Hnone. lia.
      * by rewrite Nat.add_succ_r.
    + intros [|i] Hi; [by rewrite Nat.add_0_r|].
      rewrite Nat.add_succ_r. apply IH. lia.
Qed.

Ltac verdict_leaf := intros [= _ <-]; reflexivity.

Lemma run_verdict w flags files fuel :
  (run w flags files fuel).2 = verdict w (server flags) (ocFile flags) fuel.
Proof.
  destruct (run w flags files fuel) as [s o] eqn:Hrun. cbn [snd]. revert Hrun.
  unfold run, main_after_Parse, verdict. run_main.
  destruct (playwright_Run w) as [pw err1]. run_main.
  destruct pw; run_main; [|verdict_leaf].
  destruct (Firefox_Launch w) as [browser err2]. run_main.
  destruct browser; run_main; [|verdict_leaf].
  destruct (browser_NewContext w) as [context err3]. run_main.
  destruct context; run_main; [|verdict_leaf].
  destruct (context_NewPage w) as [page err4]. run_main.
  match goal with |- context [initializationStage w _ ?S] => forget S end.
  unfold initializationStage. run_main.
  destruct (http_Get w (server flags)) as [resp|e]; run_main; [|verdict_leaf].
  destruct (http_NewRequest w "POST" (Request_URL resp)) as [e|] eqn:Hnew; run_main;
    [verdict_leaf|].
  fold (init_request w (Request_URL resp)).
  destruct (client_Do w (init_request w (Request_URL resp))) as [resp1|e]; run_main;
    [|verdict_leaf].
  destruct (xml_Unmarshal_init w (ReadAll_data resp1)) as [initResp|e]; run_main;
    [|verdict_leaf].
  destruct page; run_main; [|verdict_leaf].
  match goal with |- context [login_wait w _ _ ?S] => forget S end.
  pose proof (first_jar_spec w (TokenCookieName initResp) 0 fuel) as Hjar.
  cbn [negb andb]. 
  destruct (first_jar w (TokenCookieName initResp) 0 fuel) as [c|]; cbn [Nat.add] in Hjar.
  2:{ rewrite login_wait_spinning by (by rewrite Hpolls0). run_main. verdict_leaf. }
  destruct Hjar as (n & Hn & Hnone & Hc).
  rewrite (login_wait_found _ _ n _ _ c) by (by rewrite ?Hpolls0).
  run_main.
  match goal with |- context [finalizationStage w _ _ _ ?S] => forget S end.
  unfold finalizationStage. run_main. rewrite Hnew. run_main.
  fold (final_request w (Request_URL resp) (Opaque_Value (Opaque_ initResp)) (Value c)).
  destruct (client_Do w (final_request w (Request_URL resp)
              (Opaque_Value (Opaque_ initResp)) (Value c))) as [resp2|e]; run_main;
    [|verdict_leaf].
  destruct (xml_Unmarshal_final w (ReadAll_data resp2)) as [fr|e]; run_main;
    [|verdict_leaf].
  cbv zeta.
  destruct (os_WriteFile_outcome w (ocFile flags)
              (Sprintf config_format [Cookie fr; Fingerprint fr; Request_URL resp]));
    run_main; verdict_leaf.
Qed.

(** X13: how a run ends is a function of the answers of the world (the
    browser handles, the GET, the two POSTs, the two decodings, the jars
    and the way the write ends), of the server flag and of the output path,
    the table [verdict]: the log format and level, the status codes and the
    read errors of the responses have no part in it; so two runs that
    differ in the log flags only end the same way. *)
Theorem outcome_is_decided_by_the_world w flags files fuel :
  (run w flags files fuel).2 = verdict w (server flags) (ocFile flags) fuel ∧
  ∀ flags',
    server flags' = server flags → ocFile flags' = ocFile flags →
    (run w flags' files fuel).2 = (run w flags files fuel).2.
Proof.
  split; [apply run_verdict|].
  intros flags' Hserver HocFile. by rewrite !run_verdict, Hserver, HocFile.
Qed.

Lemma outcome_is_decided_by_the_world_witness :
  (run broken_world debug_flags ∅ 5).2 = (run broken_world spec_flags ∅ 5).2 ∧
  (run broken_world spec_flags ∅ 5).2 = Exit 0.
Proof.
  destruct (outcome_is_decided_by_the_world broken_world spec_flags ∅ 5)
    as [Hverdict Hsame].
  split; [apply Hsame; reflexivity|].
  rewrite Hverdict. vm_compute. reflexivity.
Defined.

(** A case in which the run does not panic and no handle that is used is
    nil. *)
Ltac no_panic :=
  split; [discriminate|];
  intros [H|[H|[H|[H1 H2]]]]; first [discriminate | by destruct H2].

(** X14: a run panics exactly when [playwright.Run], [Firefox.Launch] or
    [NewContext] returned nil, or [NewPage] returned nil and the
    initialization stage succeeded: with a nil page the stage still runs,
    and its failures exit with status 1 before the page is used. *)
Theorem panic_iff_nil_handle w flags files fuel :
  (run w flags files fuel).2 = Panic ↔
  (playwright_Run w).1 = false ∨ (Firefox_Launch w).1 = false ∨
  (browser_NewContext w).1 = false ∨
  ((context_NewPage w).1 = false ∧ ¬ init_fails w (server flags)).
Proof.
  rewrite run_verdict. unfold verdict, init_fails.
  destruct (playwright_Run w) as [[] err1], (Firefox_Launch w) as [[] err2],
    (browser_NewContext w) as [[] err3]; cbn [fst negb andb]; try (split; auto; fail).
  destruct (http_Get w (server flags)) as [resp|e]; cbv zeta; [|no_panic].
  destruct (http_NewRequest w "POST" (Request_URL resp)) as [e|]; [no_panic|].
  destruct (client_Do w (init_request w (Request_URL resp))) as [resp1|e]; [|no_panic].
  destruct (xml_Unmarshal_init w (ReadAll_data resp1)) as [initResp|e]; [|no_panic].
  destruct (context_NewPage w) as [[] err4]; cbn [fst negb].
  2:{ split; [|done]. intros _. do 3 right. split; [done|]. by intros []. }
  destruct (first_jar w _ 0 fuel) as [c|]; [|no_panic].
  destruct (client_Do w (final_request _ _ _ _)) as [resp2|e]; [|no_panic].
  destruct (xml_Unmarshal_final w _) as [fr|e]; [|no_panic].
  destruct (os_WriteFile_outcome w _ _); no_panic.
Qed.

Lemma panic_iff_nil_handle_witness :
  (run no_page_world spec_flags ∅ 5).2 = Panic ∧
  (run spec_world spec_flags ∅ 5).2 ≠ Panic.
Proof.
  split.
  - apply (panic_iff_nil_handle no_page_world spec_flags ∅ 5).
    right. right. right. split; [reflexivity|]. vm_compute. exact (λ H, H).
  - intros Hpanic.
    apply (panic_iff_nil_handle spec_world spec_flags ∅ 5) in Hpanic.
    destruct Hpanic as [H|[H|[H|[H _]]]]; discriminate H.
Defined.

(** ** The bound on the polls *)

Lemma agree_refl {A} (m : M A) : agree m m.
Proof. by intros s _. Qed.

Lemma agree_bind {A B} (m m' : M A) (k k' : A → M B) :
  agree m m' → (∀ a, agree (k a) (k' a)) → agree (m ≫= k) (m' ≫= k').
Proof.
  intros Hm Hk s. rewrite !bind_run. specialize (Hm s).
  destruct (m s) as [s1 [a|o]] eqn:Hms; cbn [snd] in *.
  - intros Hns. rewrite Hm by done. by apply Hk.
  - intros Hns. cbn [snd] in Hns. rewrite Hm; [done|].
    intros [= ->]. by apply Hns.
Qed.

Lemma agree_login_wait w name fuel fuel' :
  (fuel ≤ fuel')%nat → agree (login_wait w name fuel) (login_wait w name fuel').
Proof.
  intros Hle s Hns.
  destruct (first_poll w name (polls s) fuel) as [Hnone|(n & c & Hn & Hnone & Hc)].
  - by rewrite login_wait_spinning in Hns.
  - rewrite (login_wait_found _ _ n fuel _ c), (login_wait_found _ _ n fuel' _ c);
      [done | lia | done..].
Qed.

Lemma agree_main w flags fuel fuel' :
  (fuel ≤ fuel')%nat → agree (main_after_Parse w flags fuel) (main_after_Parse w flags fuel').
Proof.
  intros Hle. unfold main_after_Parse.
  repeat first
    [ by apply agree_login_wait
    | apply agree_refl
    | apply agree_bind; [|intros ?]
    | match goal with
      | |- agree (let '(_, _) := ?x in _) _ => destruct x
      end ].
Qed.

(** X15: the bound that the model puts on the polls does not show in a run
    that ends otherwise than by reaching it: with any larger bound the run
    ends the same way in the same state. *)
Theorem more_fuel_same_run w flags files fuel fuel' :
  (fuel ≤ fuel')%nat → (run w flags files fuel).2 ≠ Spinning →
  run w flags files fuel' = run w flags files fuel.
Proof.
  intros Hle Hns. unfold run in *.
  pose proof (agree_main w flags fuel fuel' Hle (boot files)) as Hagree.
  destruct (main_after_Parse w flags fuel (boot files)) as [s [a|o]] eqn:Hmain; cbn [snd] in *.
  - by rewrite Hagree.
  - rewrite Hagree; [done|]. by intros [= ->].
Qed.

Lemma more_fuel_same_run_witness :
  run spec_world spec_flags ∅ 5 = run spec_world spec_flags ∅ 2.
Proof.
  apply (more_fuel_same_run spec_world spec_flags ∅ 2 5).
  - lia.
  - vm_compute. discriminate.
Defined.

(** ** The order of the actions *)

Lemma pick_kind_idle_rounds l w k n :
  pick kind_of (idle_rounds l w k n) = waiting n.
Proof.
  revert k. induction n as [|n IH]; intros k; [done|].
  cbn [idle_rounds]. unfold poll_events.
  repeat (rewrite pick_app || rewrite pick_cons).
  rewrite pick_err_log, IH by done. reflexivity.
Qed.

(** Compute the kinds of a trace built by symbolic execution. *)
Ltac project_kinds :=
  repeat first
    [ match goal with
      | H : pick kind_of (trace ?s) = _ |- context [pick kind_of (trace ?s)] => rewrite H
      end
    | rewrite pick_app
    | rewrite pick_cons
    | rewrite pick_nil
    | rewrite pick_err_log by done
    | rewrite pick_kind_idle_rounds
    | progress unfold poll_events
    | progress cbn [option_list app record received_token kind_of] ];
  rewrite ?app_nil_r.

(** Forget how the state [S] was reached, but for its logger, its poll
    counter and the kinds of its actions. *)
Ltac checkpoint_kinds S :=
  let s1 := fresh "s" in
  let Heq := fresh "Heq" in
  remember S as s1 eqn:Heq;
  let Hlog := fresh "Hlog" in
  let Hpolls := fresh "Hpolls" in
  pose proof (f_equal log Heq) as Hlog;
  pose proof (f_equal polls Heq) as Hpolls;
  cbn [log fs polls trace after_polls add_trace with_log boot] in Hlog, Hpolls;
  repeat match goal with
    | H : log ?s = _ |- _ => tryif constr_eq H Hlog then fail else rewrite H in Hlog
    | H : polls ?s = _ |- _ => tryif constr_eq H Hpolls then fail else rewrite H in Hpolls
    end;
  let Hkinds := fresh "Hkinds" in
  eassert (Hkinds : pick kind_of (trace s1) = _)
    by (rewrite Heq; cbn [trace after_polls add_trace with_log boot]; project_kinds;
        reflexivity);
  clear Heq.

(** A leaf of the symbolic execution: the kinds of the final trace. *)
Ltac kinds_leaf :=
  intros [= <- _]; unfold kinds;
  cbn [trace after_polls add_trace with_log boot]; project_kinds.

Lemma prefix_of_script_opening (l k : list Kind) n :
  opening = l ++ k → l `prefix_of` script n.
Proof. intros Hl. exists (k ++ waiting n ++ closing ++ [KWrite]). unfold script. rewrite Hl. by rewrite <- app_assoc. Qed.

Lemma run_script_cases w flags files fuel s o :
  run w flags files fuel = (s, o) → ∃ n, kinds (trace s) `prefix_of` script n.
Proof.
  unfold run, main_after_Parse. run_main.
  destruct (playwright_Run w) as [pw err1]. run_main.
  destruct pw; run_main.
  2:{ kinds_leaf. exists 0. by eapply (prefix_of_script_opening [_]). }
  destruct (Firefox_Launch w) as [browser err2]. run_main.
  destruct browser; run_main.
  2:{ kinds_leaf. exists 0. by eapply (prefix_of_script_opening [_; _]). }
  destruct (browser_NewContext w) as [context err3]. run_main.
  destruct context; run_main.
  2:{ kinds_leaf. exists 0. by eapply (prefix_of_script_opening [_; _; _]). }
  destruct (context_NewPage w) as [page err4]. run_main.
  match goal with |- context [initializationStage w _ ?S] => checkpoint_kinds S end.
  unfold initializationStage. run_main.
  destruct (http_Get w (server flags)) as [resp|e]; run_main.
  2:{ kinds_leaf. exists 0. by eapply (prefix_of_script_opening [_; _; _; _; _]). }
  destruct (http_NewRequest w "POST" (Request_URL resp)) as [e|] eqn:Hnew; run_main.
  { kinds_leaf. exists 0. by eapply (prefix_of_script_opening [_; _; _; _; _]). }
  fold (init_request w (Request_URL resp)).
  destruct (client_Do w (init_request w (Request_URL resp))) as [resp1|e]; run_main.
  2:{ kinds_leaf. exists 0. by eapply (prefix_of_script_opening [_; _; _; _; _; _]). }
  destruct (xml_Unmarshal_init w (ReadAll_data resp1)) as [initResp|e]; run_main.
  2:{ kinds_leaf. exists 0. by eapply (prefix_of_script_opening [_; _; _; _; _; _; _]). }
  destruct page; run_main.
  2:{ kinds_leaf. exists 0. by eapply (prefix_of_script_opening [_; _; _; _; _; _; _]). }
  match goal with |- context [login_wait w _ _ ?S] => checkpoint_kinds S end.
  destruct (first_poll w (TokenCookieName initResp) 0 fuel)
    as [Hnone|(n & c & Hn & Hnone & Hc)]; cbn [Nat.add] in *.
  { rewrite login_wait_spinning by (rewrite Hpolls0; intros k Hk; apply Hnone, Hk).
    run_main. kinds_leaf. exists fuel. unfold script.
    exists (closing ++ [KWrite]). reflexivity. }
  rewrite (login_wait_found _ _ n _ _ c) by (by rewrite ?Hpolls0).
  run_main.
  match goal with |- context [finalizationStage w _ _ _ ?S] => checkpoint_kinds S end.
  unfold finalizationStage. run_main. rewrite Hnew. run_main.
  fold (final_request w (Request_URL resp) (Opaque_Value (Opaque_ initResp)) (Value c)).
  destruct (client_Do w (final_request w (Request_URL resp)
              (Opaque_Value (Opaque_ initResp)) (Value c))) as [resp2|e]; run_main.
  2:{ kinds_leaf. exists n. unfold script. exists [KDecode; KWrite].
      rewrite <- !app_assoc. reflexivity. }
  destruct (xml_Unmarshal_final w (ReadAll_data resp2)) as [fr|e]; run_main.
  2:{ kinds_leaf. exists n. unfold script. exists [KWrite].
      rewrite <- !app_assoc. reflexivity. }
  cbv zeta.
  destruct (os_WriteFile_outcome w (ocFile flags)
              (Sprintf config_format [Cookie fr; Fingerprint fr; Request_URL resp]));
    run_main; kinds_leaf; exists n; unfold script; exists [];
    rewrite <- !app_assoc; reflexivity.
Qed.

Lemma waiting_kinds n k : k ∈ waiting n → k = KPoll ∨ k = KSleep.
Proof.
  induction n as [|n IH]; [by intros ?%elem_of_nil|].
  change (waiting (S n)) with ([KPoll; KSleep] ++ waiting n).
  rewrite elem_of_app, !elem_of_cons. intros [[->|[->|[]%elem_of_nil]]|Hin]; auto.
Qed.

Lemma filter_waiting K n :
  K ≠ KPoll → K ≠ KSleep → filter (λ k, k = K) (waiting n) = [].
Proof.
  intros HP HS. induction n as [|n IH]; [done|].
  change (waiting (S n)) with ([KPoll; KSleep] ++ waiting n).
  rewrite filter_app, IH, app_nil_r.
  rewrite filter_cons_False by (by intros <-).
  rewrite filter_cons_False by (by intros <-). done.
Qed.

Lemma last_occurrence {A} (x : A) (a pre tl : list A) :
  x ∉ a → pre ++ x :: tl = a ++ [x] → pre = a ∧ tl = [].
Proof.
  revert pre. induction a as [|y a IH]; intros pre Hx Heq.
  - destruct pre as [|z pre]; cbn in Heq.
    + by injection Heq as <-.
    + injection Heq as -> Heq. by destruct pre.
  - apply not_elem_of_cons in Hx as [Hxy Hx].
    destruct pre as [|z pre]; cbn in Heq.
    + injection Heq as -> _. done.
    + injection Heq as -> Heq. destruct (IH pre Hx Heq) as [-> ->]. done.
Qed.

Lemma script_before_write n : KWrite ∉ opening ++ waiting n ++ closing.
Proof.
  rewrite !elem_of_app. intros [Hin|[Hin|Hin]].
  - unfold opening in Hin. rewrite !elem_of_cons in Hin.
    destruct Hin as [|[|[|[|[|[|[|[|Hin]]]]]]]]; try done. by apply elem_of_nil in Hin.
  - by destruct (waiting_kinds n _ Hin).
  - unfold closing in Hin. rewrite !elem_of_cons in Hin.
    destruct Hin as [|[|[|[|Hin]]]]; try done. by apply elem_of_nil in Hin.
Qed.

(** X17: the actions of a run, the records left aside, are in this order
    an initial part of: start playwright, launch the browser, new context,
    new page, GET, POST, decode, navigate, then polls each followed by a
    sleep, then the poll that finds the token, close the browser, POST,
    decode, write.  So a write is the last action of a run and comes after
    both POSTs, both decodings and the close of the browser; and but for
    the polls and the sleeps no action happens more than once, the POST
    and the decoding more than twice. *)
Theorem run_follows_the_script w flags files fuel :
  let s := (run w flags files fuel).1 in
  (∃ n, kinds (trace s) `prefix_of` script n) ∧
  (∀ pre post, kinds (trace s) = pre ++ KWrite :: post →
     post = [] ∧ ∃ n, pre = opening ++ waiting n ++ closing) ∧
  (∀ K, K ≠ KPoll → K ≠ KSleep →
     (length (filter (λ k, k = K) (kinds (trace s))) ≤
      if bool_decide (K = KPost ∨ K = KDecode) then 2 else 1)%nat).
Proof.
  intros s. subst s.
  destruct (run w flags files fuel) as [s o] eqn:Hrun. cbn [fst].
  apply run_script_cases in Hrun as [n [rest Hscript]].
  split; [by exists n, rest|]. split.
  - intros pre post Hkinds. rewrite Hkinds in Hscript.
    unfold script in Hscript. rewrite !app_assoc in Hscript.
    rewrite <- !app_assoc in Hscript. cbn [app] in Hscript.
    symmetry in Hscript.
    assert (Hlast : pre ++ KWrite :: (post ++ rest) =
                    (opening ++ waiting n ++ closing) ++ [KWrite]).
    { rewrite Hscript. by rewrite <- !app_assoc. }
    apply last_occurrence in Hlast as [-> Hnil]; [|apply script_before_write].
    apply app_eq_nil in Hnil as [-> _]. split; [done|]. by exists n.
  - intros K HP HS.
    assert (Hle : (length (filter (λ k, k = K) (kinds (trace s))) ≤
                   length (filter (λ k, k = K) (script n)))%nat).
    { rewrite Hscript, filter_app, length_app. lia. }
    etrans; [exact Hle|]. unfold script.
    rewrite !filter_app, filter_waiting by done. rewrite !length_app.
    destruct K; try done; vm_compute; lia.
Qed.

Lemma run_follows_the_script_witness :
  kinds (trace (run spec_world spec_flags ∅ 5).1) = script 1 ∧
  ∃ n, opening ++ waiting 1 ++ closing = opening ++ waiting n ++ closing.
Proof.
  split; [vm_compute; reflexivity|].
  destruct (run_follows_the_script spec_world spec_flags ∅ 5) as (_ & Hwrite & _).
  destruct (Hwrite (opening ++ waiting 1 ++ closing) []) as [_ Hpre].
  - vm_compute. reflexivity.
  - exact Hpre.
Defined.
